(** * Liver-disease staging adapter: validation, model loading, prediction

    A shallow embedding of [src/model_utils.py]:
    [get_feature_ranges], [validate_input_data], [load_model] (under
    Streamlit's [st.cache_resource]) and [predict_liver_disease].

    Python values are an inductive type of the built-in classes; a [dict]
    keyed by strings is a [gmap string _], a [set] of strings a
    [gset string]; a Python [float] is an IEEE-754 binary64 value of the
    Standard Library's [spec_float].  Raising is an explicit [outcome];
    the process state touched by [load_model] (file system, the
    [cache_resource] slot, the page's error list) is threaded explicitly. *)

From Stdlib Require Import ZArith String List Bool.
From Stdlib Require Import Floats.SpecFloat.
From stdpp Require Import gmap strings list fin_maps pretty.

Local Open Scope Z_scope.
Local Open Scope string_scope.
Local Set Warnings "-register-all".

(** ** Python values *)

Module Py.

(** Built-in values a caller can put in, or pass instead of, the record.
    A dict is keyed by strings here: keys of any other class never match a
    field name, so they do not influence any function below. *)
Inductive pyval : Type :=
| VNone
| VBool (b : bool)
| VInt (z : Z)
| VFloat (f : spec_float)
| VStr (s : string)
| VList (l : list pyval)
| VDict (d : gmap string pyval).

(** [type(v).__name__] *)
Definition type_name (v : pyval) : string :=
  match v with
  | VNone => "NoneType"
  | VBool _ => "bool"
  | VInt _ => "int"
  | VFloat _ => "float"
  | VStr _ => "str"
  | VList _ => "list"
  | VDict _ => "dict"
  end.

(** Numbers: the instances of [int] (with its subclass [bool]) and [float]. *)
Inductive pynum : Type :=
| NInt (z : Z)
| NFloat (f : spec_float).

Definition num_val (n : pynum) : pyval :=
  match n with
  | NInt z => VInt z
  | NFloat f => VFloat f
  end.

(** [isinstance(v, (int, float))], returning the number when it holds.
    [bool] is a subclass of [int]: [True] is 1 and [False] is 0. *)
Definition as_number (v : pyval) : option pynum :=
  match v with
  | VBool b => Some (NInt (if b then 1 else 0))
  | VInt z => Some (NInt z)
  | VFloat f => Some (NFloat f)
  | _ => None
  end.

(** The extended real a number denotes.  A finite value is [m * 2^e]. *)
Inductive ext : Type :=
| ENaN
| ENegInf
| EFin (m e : Z)
| EPosInf.

Definition ext_of (n : pynum) : ext :=
  match n with
  | NInt z => EFin z 0
  | NFloat (S754_zero _) => EFin 0 0
  | NFloat (S754_infinity s) => if s then ENegInf else EPosInf
  | NFloat S754_nan => ENaN
  | NFloat (S754_finite s m e) => EFin (if s then Z.neg m else Z.pos m) e
  end.

(** Exact three-way comparison; Python compares an [int] with a [float]
    by value, without rounding the [int].  [None] when a NaN is involved:
    then every ordering test and [==] is false. *)
Definition ext_compare (a b : ext) : option comparison :=
  match a, b with
  | ENaN, _ | _, ENaN => None
  | ENegInf, ENegInf => Some Eq
  | ENegInf, _ => Some Lt
  | _, ENegInf => Some Gt
  | EPosInf, EPosInf => Some Eq
  | EPosInf, _ => Some Gt
  | _, EPosInf => Some Lt
  | EFin m1 e1, EFin m2 e2 =>
      let e := Z.min e1 e2 in
      Some (Z.compare (m1 * 2 ^ (e1 - e)) (m2 * 2 ^ (e2 - e)))
  end.

Definition num_compare (a b : pynum) : option comparison :=
  ext_compare (ext_of a) (ext_of b).

(** [a < b], [a > b], [a <= b], [a == b] on numbers *)
Definition num_lt (a b : pynum) : bool :=
  match num_compare a b with Some Lt => true | _ => false end.
Definition num_gt (a b : pynum) : bool :=
  match num_compare a b with Some Gt => true | _ => false end.
Definition num_le (a b : pynum) : bool :=
  match num_compare a b with Some Lt | Some Eq => true | _ => false end.
Definition num_eq (a b : pynum) : bool :=
  match num_compare a b with Some Eq => true | _ => false end.

(** [v == z] for an [int] literal [z]: numbers compare by value, every
    other built-in class compares unequal to a number. *)
Definition eq_int (v : pyval) (z : Z) : bool :=
  match as_number v with
  | Some n => num_eq n (NInt z)
  | None => false
  end.

(** [v == s] for a [str] literal [s] *)
Definition eq_str (v : pyval) (s : string) : bool :=
  match v with
  | VStr t => bool_decide (t = s)
  | _ => false
  end.

(** [v in [z1, z2, ...]] and [v in [s1, s2, ...]]: list membership tests
    [==] against each element in turn. *)
Definition in_ints (v : pyval) (zs : list Z) : bool :=
  existsb (eq_int v) zs.
Definition in_strs (v : pyval) (ss : list string) : bool :=
  existsb (eq_str v) ss.
#[global] Arguments in_ints : simpl never.
#[global] Arguments in_strs : simpl never.

(** Binary64 arithmetic ([prec = 53], [emax = 1024]). *)
Definition f64_of_Z (z : Z) : spec_float :=
  binary_normalize 53 1024 z 0 false.
Definition f64_sub (a b : spec_float) : spec_float := SFsub 53 1024 a b.
Definition f64_add (a b : spec_float) : spec_float := SFadd 53 1024 a b.
Definition f64_div (a b : spec_float) : spec_float := SFdiv 53 1024 a b.

(** The decimal literal [digits / 10^scale], e.g. [f64_lit 3 1] for [0.3]:
    both operands are exact, so the correctly rounded quotient is the
    binary64 value nearest to the decimal, which is what the literal
    denotes. *)
Definition f64_lit (digits : Z) (scale : nat) : spec_float :=
  f64_div (f64_of_Z digits) (f64_of_Z (10 ^ Z.of_nat scale)).

(** [n - 1] and [n + 1]: [int] arithmetic on an [int], binary64 on a
    [float]. *)
Definition num_pred (n : pynum) : pynum :=
  match n with
  | NInt z => NInt (z - 1)
  | NFloat f => NFloat (f64_sub f (f64_of_Z 1))
  end.
Definition num_succ (n : pynum) : pynum :=
  match n with
  | NInt z => NInt (z + 1)
  | NFloat f => NFloat (f64_add f (f64_of_Z 1))
  end.

(** [repr] of a [float], as f-strings use it.  The printer belongs to the
    interpreter, so it is an interface here and the results below hold for
    any printer; [Repr] further down implements CPython's. *)
Class FloatRepr := float_repr : spec_float -> string.

(** [format(n)] inside an f-string *)
Definition num_str `{FloatRepr} (n : pynum) : string :=
  match n with
  | NInt z => pretty z
  | NFloat f => float_repr f
  end.

(** Exceptions.  Every class listed derives from [Exception]; [str(e)] is
    [exn_msg e]. *)
Inductive exn_class : Type :=
| AttributeError
| KeyError
| IndexError
| FileNotFoundError
| ValueError
| RuntimeError
| OtherException (name : string).

Record exn : Type := Exn { exn_cls : exn_class; exn_msg : string }.

Inductive outcome (A : Type) : Type :=
| Return (a : A)
| Raise (e : exn).
Arguments Return {A} a.
Arguments Raise {A} e.

Definition bind {A B} (m : outcome A) (k : A -> outcome B) : outcome B :=
  match m with
  | Return a => k a
  | Raise e => Raise e
  end.

(** [try: body  except Exception as e: handler(e)] *)
Definition try_except {A} (body : outcome A) (handler : exn -> outcome A)
  : outcome A :=
  match body with
  | Return a => Return a
  | Raise e => handler e
  end.

(** What [v.attr] raises when the class of [v] has no such attribute *)
Definition no_attribute (v : pyval) (attr : string) : exn :=
  Exn AttributeError
    ("'" ++ type_name v ++ "' object has no attribute '" ++ attr ++ "'").

(** [d[k]]; the message of a [KeyError] is the [repr] of the key *)
Definition getitem (d : gmap string pyval) (k : string) : outcome pyval :=
  match d !! k with
  | Some v => Return v
  | None => Raise (Exn KeyError ("'" ++ k ++ "'"))
  end.

(** [l[0]] on a NumPy array *)
Definition first {A} (l : list A) : outcome A :=
  match l with
  | x :: _ => Return x
  | [] => Raise (Exn IndexError
                   "index 0 is out of bounds for axis 0 with size 0")
  end.

(** A [dict] whose iteration order matters is an association list in
    insertion order; [d[k] = v] overwrites in place or appends. *)
Fixpoint dict_set {V} (d : list (string * V)) (k : string) (v : V)
  : list (string * V) :=
  match d with
  | [] => [(k, v)]
  | (k', v') :: rest =>
      if bool_decide (k' = k) then (k, v) :: rest
      else (k', v') :: dict_set rest k v
  end.

Fixpoint dict_get {V} (d : list (string * V)) (k : string) : option V :=
  match d with
  | [] => None
  | (k', v') :: rest => if bool_decide (k' = k) then Some v' else dict_get rest k
  end.

(** [{k: f(v) for k, v in pairs}] *)
Definition dict_comprehension {V W} (f : V -> W) (pairs : list (string * V))
  : list (string * W) :=
  fold_left (fun d kv => dict_set d (fst kv) (f (snd kv))) pairs [].

End Py.

Export Py.

(** ** [repr] of a float

    CPython prints a float as the shortest decimal string that rounds back
    to the same binary64 value, in positional notation when the decimal
    point falls within 16 digits and in exponent notation otherwise.  The
    theorems below hold for any [FloatRepr]; this instance makes the
    messages of concrete records computable. *)

Module Repr.

(** [a * 10^p ?= b * 2^q] for integers [p], [q] of either sign *)
Definition cmp_dec_bin (a p b q : Z) : comparison :=
  Z.compare (a * 10 ^ Z.max p 0 * 2 ^ Z.max (- q) 0)
            (b * 2 ^ Z.max q 0 * 10 ^ Z.max (- p) 0).

(** The least [k] above [k0] with [v < 10^k], for [v = m * 2^e]. *)
Fixpoint decimal_point (fuel : nat) (m e k : Z) : Z :=
  match fuel with
  | O => k
  | S fuel' =>
      match cmp_dec_bin 1 k m e with
      | Gt => k
      | _ => decimal_point fuel' m e (k + 1)
      end
  end.

(** Does the decimal [d * 10^q] round to the binary64 value [m * 2^e]?
    The rounding interval is given in quarter units of the last place. *)
Definition rounds_to (m e d q : Z) : bool :=
  let below := if Z.eqb m (2 ^ 52) && Z.ltb (-1074) e then 1 else 2 in
  let lo := cmp_dec_bin d q (4 * m - below) (e - 2) in
  let hi := cmp_dec_bin d q (4 * m + 2) (e - 2) in
  let closed := Z.even m in
  match lo, hi with
  | Gt, Lt => true
  | Eq, Lt | Gt, Eq => closed
  | _, _ => false
  end.

(** The [n]-digit decimal nearest to [m * 2^e], when it rounds back. *)
Definition candidate (m e k : Z) (n : Z) : option (Z * Z) :=
  let q := k - n in
  let num := m * 2 ^ Z.max e 0 * 10 ^ Z.max (- q) 0 in
  let den := 2 ^ Z.max (- e) 0 * 10 ^ Z.max q 0 in
  let d := num / den in
  let up := match Z.compare (2 * num) ((2 * d + 1) * den) with
            | Lt => false
            | Gt => true
            | Eq => Z.odd d
            end in
  let near := if up then d + 1 else d in
  let far := if up then d else d + 1 in
  if rounds_to m e near q then Some (near, q)
  else if rounds_to m e far q then Some (far, q)
  else None.

(** The first digit count, from [n] up, at which a decimal rounds back;
    seventeen digits always suffice for a binary64 value. *)
Fixpoint shortest (fuel : nat) (m e k n : Z) : Z * Z :=
  match fuel with
  | O => (m, 0)
  | S fuel' =>
      match candidate m e k n with
      | Some r => r
      | None => shortest fuel' m e k (n + 1)
      end
  end.

(** [d * 10^q] without trailing zeros in [d] *)
Fixpoint strip_zeros (fuel : nat) (d q : Z) : Z * Z :=
  match fuel with
  | O => (d, q)
  | S fuel' =>
      if Z.eqb (d mod 10) 0 && Z.ltb 0 d then strip_zeros fuel' (d / 10) (q + 1)
      else (d, q)
  end.

Fixpoint zeros (n : nat) : string :=
  match n with
  | O => ""
  | S n' => "0" ++ zeros n'
  end.

Definition drop_prefix (n : nat) (s : string) : string :=
  substring n (String.length s - n) s.

(** Digits [ds] with the decimal point after [decpt] of them. *)
Definition layout (ds : string) (decpt : Z) : string :=
  let n := Z.of_nat (String.length ds) in
  if Z.ltb (-4) decpt && Z.leb decpt 16 then
    if Z.leb decpt 0 then "0." ++ zeros (Z.to_nat (- decpt)) ++ ds
    else if Z.ltb decpt n
      then substring 0 (Z.to_nat decpt) ds ++ "." ++ drop_prefix (Z.to_nat decpt) ds
    else ds ++ zeros (Z.to_nat (decpt - n)) ++ ".0"
  else
    let x := decpt - 1 in
    let mant := if Z.eqb n 1 then ds
                else substring 0 1 ds ++ "." ++ drop_prefix 1 ds in
    let ex := pretty (Z.abs x) in
    mant ++ "e" ++ (if Z.ltb x 0 then "-" else "+")
         ++ (if Z.ltb (Z.abs x) 10 then "0" else "") ++ ex.

(** A positive finite value [m * 2^e]; [k0] is a lower estimate of its
    decimal exponent from [log10 2 = 0.30103]. *)
Definition repr_finite (m e : Z) : string :=
  let k0 := ((Z.log2 m + e) * 30103) / 100000 - 1 in
  let k := decimal_point 4 m e k0 in
  let '(d, q) := shortest 17 m e k 1 in
  let '(d, q) := strip_zeros 17 d q in
  let ds := pretty d in
  layout ds (Z.of_nat (String.length ds) + q).

(** [repr(f)]: the shortest decimal that reads back as [f]. *)
Definition repr (f : spec_float) : string :=
  match f with
  | S754_nan => "nan"
  | S754_infinity s => if s then "-inf" else "inf"
  | S754_zero s => if s then "-0.0" else "0.0"
  | S754_finite s m e =>
      (if s then "-" else "") ++ repr_finite (Z.pos m) e
  end.

End Repr.

#[global] Instance shortest_repr : FloatRepr := Repr.repr.

Notation "'let!' x ':=' m 'in' k" := (bind m (fun x => k))
  (at level 10, x name, m at level 100, k at level 200).

(** ** Feature catalog *)

(** [get_feature_ranges]: a dict literal, iterated in insertion order. *)
Definition get_feature_ranges : list (string * (pynum * pynum)) :=
  [ ("Age",        (NInt 18, NInt 90));
    ("Albumin",    (NFloat (f64_lit 20 1), NFloat (f64_lit 60 1)));
    ("Bilirubin",  (NFloat (f64_lit 3 1), NFloat (f64_lit 100 1)));
    ("ALT",        (NInt 7, NInt 2000));
    ("AST",        (NInt 10, NInt 2000));
    ("ALP",        (NInt 44, NInt 500));
    ("INR",        (NFloat (f64_lit 5 1), NFloat (f64_lit 50 1)));
    ("Platelets",  (NInt 20, NInt 500));
    ("Sodium",     (NInt 125, NInt 145));
    ("Creatinine", (NFloat (f64_lit 5 1), NFloat (f64_lit 40 1))) ].

(** ** Validator *)

Definition required_fields : gset string :=
  {[ "Age"; "Sex"; "Albumin"; "Bilirubin"; "ALT"; "AST"; "ALP";
     "INR"; "Platelets"; "Sodium"; "Creatinine"; "Ascites";
     "Hepatomegaly"; "Spiders"; "Edema" ]}.

Definition boolean_fields : list string :=
  [ "Ascites"; "Hepatomegaly"; "Spiders"; "Edema" ].

Section Validator.
Context `{FloatRepr}.

(** One iteration of the range loop: [Some r] when the body executes
    [return r], [None] when it falls through to the next field.  The
    lookup is [if field in patient_data: value = patient_data[field]]. *)
Definition check_range (patient_data : gmap string pyval)
    (entry : string * (pynum * pynum)) : option (bool * string) :=
  let '(field, (min_val, max_val)) := entry in
  match patient_data !! field with
  | Some value =>
      match as_number value with
      | None => Some (false, field ++ " must be a number")
      | Some n =>
          if num_lt n min_val || num_gt n max_val
          then Some (false, field ++ " must be between " ++ num_str min_val
                              ++ " and " ++ num_str max_val)
          else None
      end
  | None => None
  end.

(** [for field, (min_val, max_val) in ranges.items(): ...] *)
Fixpoint check_ranges (patient_data : gmap string pyval)
    (ranges : list (string * (pynum * pynum))) : option (bool * string) :=
  match ranges with
  | [] => None
  | entry :: rest =>
      match check_range patient_data entry with
      | Some r => Some r
      | None => check_ranges patient_data rest
      end
  end.

(** [for field in boolean_fields: ...] *)
Fixpoint check_booleans (patient_data : gmap string pyval)
    (fields : list string) : outcome (option (bool * string)) :=
  match fields with
  | [] => Return None
  | field :: rest =>
      let! v := getitem patient_data field in
      if negb (in_ints v [0; 1])
      then Return (Some (false, field ++ " must be 0 or 1"))
      else check_booleans patient_data rest
  end.

(** [if patient_data['Sex'] not in ['M', 'F']: return ...] *)
Definition check_sex (patient_data : gmap string pyval)
  : outcome (option (bool * string)) :=
  let! sex := getitem patient_data "Sex" in
  if negb (in_strs sex ["M"; "F"])
  then Return (Some (false, "Sex must be either 'M' or 'F'"))
  else Return None.

(** The range, Sex and boolean checks in order, reached once no required
    field is missing; the first [return] ends the function. *)
Definition validate_fields (d : gmap string pyval) : outcome (bool * string) :=
  match check_ranges d get_feature_ranges with
  | Some r => Return r
  | None =>
      let! s := check_sex d in
      match s with
      | Some r => Return r
      | None =>
          let! b := check_booleans d boolean_fields in
          match b with
          | Some r => Return r
          | None => Return (true, "")
          end
      end
  end.

(** [required_fields - set(patient_data.keys())] *)
Definition missing_fields (d : gmap string pyval) : gset string :=
  required_fields ∖ dom d.

(** [', '.join(s)] for a set [s]; [elements] stands for the iteration
    order of the set, which Python leaves unspecified. *)
Definition join_set (s : gset string) : string :=
  String.concat ", " (elements s).

(** The body of the [try] block.  [patient_data.keys()] is the first thing
    done with the argument: only a dict has that method. *)
Definition validate_body (patient_data : pyval) : outcome (bool * string) :=
  match patient_data with
  | VDict d =>
      if negb (bool_decide (missing_fields d = ∅))
      then Return (false, "Missing required fields: "
                            ++ join_set (missing_fields d))
      else validate_fields d
  | _ => Raise (no_attribute patient_data "keys")
  end.

Definition validate_input_data (patient_data : pyval)
  : outcome (bool * string) :=
  try_except (validate_body patient_data)
    (fun e => Return (false, "Validation error: " ++ exn_msg e)).

End Validator.

(** ** Model loader *)

(** The fitted pipeline, through the three members the adapter uses.  A
    data frame is the list of its rows. *)
Record classifier : Type := Classifier {
  predict : list pyval -> outcome (list string);
  predict_proba : list pyval -> outcome (list (list spec_float));
  classes_ : list string
}.

(** What lies at the model path. *)
Inductive file : Type :=
| Absent
| Unreadable (e : exn)        (* [joblib.load] raises [e] on it *)
| Pickled (m : classifier).

(** An object in memory: [obj_id] tells two deserializations of the same
    file apart. *)
Record handle : Type := Handle { obj_id : nat; obj : classifier }.

(** What [st.cache_resource] keeps of the call it ran: the object returned
    and the page elements the call drew, which it draws again on every
    hit.  [load_model] draws only in its handler, which returns [None], so
    an entry is a handle, or a failure with the elements drawn. *)
Inductive cached : Type :=
| CachedModel (h : handle)
| CachedFailure (drawn : list string).

Definition cached_value (c : cached) : option handle :=
  match c with
  | CachedModel h => Some h
  | CachedFailure _ => None
  end.

Definition cached_entry (v : option handle) (drawn : list string) : cached :=
  match v with
  | Some h => CachedModel h
  | None => CachedFailure drawn
  end.

(** The state of the process and its surroundings.  [loader_calls] is a
    ghost counter of calls of [load_model]; [joblib_loads] counts the
    executions of [joblib.load]; [st_errors] are the error boxes drawn on
    the page so far. *)
Record world : Type := World {
  module_dir : string;
  model_file : file;
  cache_slot : option cached;
  joblib_loads : nat;
  loader_calls : nat;
  st_errors : list string
}.

(** What a call of [load_model] gets from the cache, if anything. *)
Definition cache (w : world) : option (option handle) :=
  cached_value <$> cache_slot w.

Definition set_cache (c : option cached) (w : world) : world :=
  World (module_dir w) (model_file w) c (joblib_loads w) (loader_calls w)
        (st_errors w).

Definition count_call (w : world) : world :=
  World (module_dir w) (model_file w) (cache_slot w) (joblib_loads w)
        (S (loader_calls w)) (st_errors w).

(** [st.error(msg)] *)
Definition st_error (msg : string) (w : world) : world :=
  World (module_dir w) (model_file w) (cache_slot w) (joblib_loads w)
        (loader_calls w) (st_errors w ++ [msg]).

(** The elements of a cached call, drawn again. *)
Definition replay (drawn : list string) (w : world) : world :=
  World (module_dir w) (model_file w) (cache_slot w) (joblib_loads w)
        (loader_calls w) (st_errors w ++ drawn).

(** [Path(__file__).resolve().parent / 'liver_disease_staging_model.pkl'] *)
Definition model_path (w : world) : string :=
  module_dir w ++ "/liver_disease_staging_model.pkl".

Definition path_exists (w : world) : bool :=
  match model_file w with
  | Absent => false
  | _ => true
  end.

(** [joblib.load(model_path)]: each execution is counted and, when it
    succeeds, builds a new object. *)
Definition joblib_load (w : world) : outcome handle * world :=
  let w' := World (module_dir w) (model_file w) (cache_slot w)
                  (S (joblib_loads w)) (loader_calls w) (st_errors w) in
  match model_file w with
  | Pickled m => (Return (Handle (joblib_loads w) m), w')
  | Unreadable e => (Raise e, w')
  | Absent =>
      (Raise (Exn FileNotFoundError
                ("[Errno 2] No such file or directory: '" ++ model_path w
                   ++ "'")), w')
  end.

(** The function under the decorator: the [try] block, then the handler
    that reports on the page and returns [None]. *)
Definition load_model_fn (w : world) : option handle * world :=
  let '(r, w1) :=
    if negb (path_exists w)
    then (Raise (Exn FileNotFoundError
                   ("Model file not found at " ++ model_path w)), w)
    else joblib_load w in
  match r with
  | Return model => (Some model, w1)
  | Raise e => (None, st_error ("Error loading model: " ++ exn_msg e) w1)
  end.

(** [@st.cache_resource] on a function without arguments: the first call
    runs the function and stores what it returned together with the page
    elements it drew meanwhile; every later call hands the stored object
    back and draws the stored elements again. *)
Definition cache_resource (fn : world -> option handle * world) (w : world)
  : option handle * world :=
  match cache_slot w with
  | Some (CachedModel h) => (Some h, w)
  | Some (CachedFailure drawn) => (None, replay drawn w)
  | None =>
      let '(v, w') := fn w in
      let drawn := drop (length (st_errors w)) (st_errors w') in
      (v, set_cache (Some (cached_entry v drawn)) w')
  end.

Definition load_model (w : world) : option handle * world :=
  cache_resource load_model_fn (count_call w).

(** [n] calls of [load_model] in a row, with what each returned. *)
Fixpoint load_model_times (n : nat) (w : world)
  : list (option handle) * world :=
  match n with
  | O => ([], w)
  | S n' =>
      let '(v, w1) := load_model w in
      let '(vs, w2) := load_model_times n' w1 in
      (v :: vs, w2)
  end.

(** ** Prediction adapter *)

Section Adapter.
Context `{FloatRepr}.

(** The [try] block of [predict_liver_disease]; [float(prob)] leaves a
    binary64 value as it is. *)
Definition run_inference (model : classifier) (patient_data : pyval)
  : outcome (string * list (string * spec_float)) :=
  let df := [patient_data] in
  let! stages := predict model df in
  let! predicted_stage := first stages in
  let! rows := predict_proba model df in
  let! probabilities := first rows in
  let stage_names := classes_ model in
  let prob_dict := dict_comprehension id (zip stage_names probabilities) in
  Return (predicted_stage, prob_dict).

Definition predict_liver_disease (patient_data : pyval) (w : world)
  : outcome (string * list (string * spec_float)) * world :=
  match validate_input_data patient_data with
  | Raise e => (Raise e, w)
  | Return (is_valid, error_message) =>
      if negb is_valid
      then (Raise (Exn ValueError error_message), w)
      else
        let '(model, w') := load_model w in
        match model with
        | None => (Raise (Exn RuntimeError "Failed to load model"), w')
        | Some h =>
            (try_except (run_inference (obj h) patient_data)
               (fun e => Raise (Exn RuntimeError
                                  ("Prediction error: " ++ exn_msg e))),
             w')
        end
  end.

End Adapter.

(** ** Specification-side definitions *)

(** The fifteen field names in the order the source lists them. *)
Definition required_list : list string :=
  [ "Age"; "Sex"; "Albumin"; "Bilirubin"; "ALT"; "AST"; "ALP";
    "INR"; "Platelets"; "Sodium"; "Creatinine"; "Ascites";
    "Hepatomegaly"; "Spiders"; "Edema" ].

(** [lo <= v <= hi] for a numeric [v]: the closed range of the data model. *)
Definition in_range (v : pyval) (lo hi : pynum) : Prop :=
  exists n, as_number v = Some n /\ num_le lo n = true /\ num_le n hi = true.

(** A record with valid values in all fifteen fields; nothing is said
    about any other key. *)
Definition valid_fields (d : gmap string pyval) : Prop :=
  (forall field lo hi, (field, (lo, hi)) ∈ get_feature_ranges ->
     exists v, d !! field = Some v /\ in_range v lo hi)
  /\ (d !! "Sex" = Some (VStr "M") \/ d !! "Sex" = Some (VStr "F"))
  /\ (forall f, f ∈ boolean_fields ->
        d !! f = Some (VInt 0) \/ d !! f = Some (VInt 1)).

(** The first boolean field, in the order checked, whose value is neither
    [== 0] nor [== 1]. *)
Definition first_offending (d : gmap string pyval) : option string :=
  find (fun f => match d !! f with
                 | Some v => negb (in_ints v [0; 1])
                 | None => false
                 end) boolean_fields.

(** What each bound of a catalog entry has to satisfy for the boundary
    behaviour: the bounds are inside, one unit further out is outside. *)
Definition bounds_behave (entry : string * (pynum * pynum)) : bool :=
  let '(_, (lo, hi)) := entry in
  negb (num_lt lo lo || num_gt lo hi) && negb (num_lt hi lo || num_gt hi hi)
  && num_lt (num_pred lo) lo && num_gt (num_succ hi) hi.

(** Why loading fails, when it does. *)
Definition load_failure (w : world) : option string :=
  match model_file w with
  | Absent => Some ("Model file not found at " ++ model_path w)
  | Unreadable e => Some (exn_msg e)
  | Pickled _ => None
  end.

(** A process that has not called [load_model] yet. *)
Definition fresh_process (dir : string) (f : file) : world :=
  World dir f None 0 0 [].

(** ** Sample data *)

(** The record the form submits when left at its defaults. *)
Definition sample_record : gmap string pyval :=
  list_to_map
    [ ("Age", VInt 50); ("Sex", VStr "M");
      ("Albumin", VFloat (f64_lit 40 1)); ("Bilirubin", VFloat (f64_lit 10 1));
      ("ALT", VInt 30); ("AST", VInt 30); ("ALP", VInt 100);
      ("INR", VFloat (f64_lit 10 1)); ("Platelets", VInt 150);
      ("Sodium", VInt 135); ("Creatinine", VFloat (f64_lit 10 1));
      ("Ascites", VInt 0); ("Hepatomegaly", VInt 0);
      ("Spiders", VInt 0); ("Edema", VInt 0) ].

(** The sample record with one field changed, or removed, or added. *)
Definition record_float_flag : gmap string pyval :=
  <["Ascites" := VFloat (f64_lit 10 1)]> sample_record.
Definition record_spiders_2 : gmap string pyval :=
  <["Spiders" := VInt 2]> sample_record.
Definition record_lowercase_sex : gmap string pyval :=
  <["Sex" := VStr "m"]> sample_record.
Definition record_without_age_sex : gmap string pyval :=
  delete "Age" (delete "Sex" sample_record).
Definition extra_keys : gmap string pyval :=
  <["Notes" := VStr "follow-up"]> {["PatientId" := VInt 4711]}.

(** A classifier that answers the same for every frame. *)
Definition stub_classifier : classifier :=
  Classifier
    (fun _ => Return ["Stage2"])
    (fun _ => Return [[f64_lit 2 1; f64_lit 3 1; f64_lit 5 1]])
    ["Stage1"; "Stage2"; "Stage3"].

(** A classifier fitted on other columns than the record has. *)
Definition mismatched_classifier : classifier :=
  Classifier
    (fun _ => Raise (Exn ValueError "columns are missing: {'Stage'}"))
    (fun _ => Raise (Exn ValueError "columns are missing: {'Stage'}"))
    ["Stage1"; "Stage2"; "Stage3"].

Definition stub_world : world :=
  fresh_process "/app/src" (Pickled stub_classifier).

Definition corrupt_pickle : exn :=
  Exn (OtherException "UnpicklingError") "invalid load key, 'x'.".

(** ** Feature descriptions *)

(** [get_feature_descriptions]: the help text of each form field. *)
Definition get_feature_descriptions : list (string * string) :=
  [ ("Age", "Patient's age in years");
    ("Sex", "Patient's biological sex (M/F)");
    ("Albumin", "Serum albumin level (Normal: 3.5-5.5 g/dL)");
    ("Bilirubin", "Total bilirubin level (Normal: 0.3-1.2 mg/dL)");
    ("ALT", "Alanine aminotransferase (Normal: 7-56 U/L)");
    ("AST", "Aspartate aminotransferase (Normal: 10-40 U/L)");
    ("ALP", "Alkaline phosphatase (Normal: 44-147 U/L)");
    ("INR", "International normalized ratio (Normal: 0.8-1.1)");
    ("Platelets", "Platelet count (Normal: 150-450 ×10⁹/L)");
    ("Sodium", "Serum sodium level (Normal: 135-145 mEq/L)");
    ("Creatinine", "Serum creatinine (Normal: 0.7-1.3 mg/dL)");
    ("Ascites", "Accumulation of fluid in the peritoneal cavity");
    ("Hepatomegaly", "Enlarged liver");
    ("Spiders", "Spider angiomas (spider-like blood vessels)");
    ("Edema", "Swelling caused by fluid retention") ].

(** ** The form script ([app.py]) *)

(** [format(v, '.1%')], as the results table uses it; an interface like
    [FloatRepr], implemented in [Percent]. *)
Class PercentFormat := format_percent : spec_float -> string.

Module Percent.

(** [m * 2^e * 10] rounded to the nearest integer, ties to even *)
Definition tenths (m e : Z) : Z :=
  let num := m * 10 * 2 ^ Z.max e 0 in
  let den := 2 ^ Z.max (- e) 0 in
  let q := num / den in
  match Z.compare (2 * (num mod den)) den with
  | Lt => q
  | Gt => q + 1
  | Eq => if Z.even q then q else q + 1
  end.

(** [format(x, '.1f')] *)
Definition fixed1 (x : spec_float) : string :=
  match x with
  | S754_nan => "nan"
  | S754_infinity s => if s then "-inf" else "inf"
  | S754_zero s => if s then "-0.0" else "0.0"
  | S754_finite s m e =>
      let t := tenths (Z.pos m) e in
      (if s then "-" else "") ++ pretty (t / 10) ++ "." ++ pretty (t mod 10)
  end.

(** The value times 100, in binary64, printed with one decimal. *)
Definition format (v : spec_float) : string :=
  fixed1 (SFmul 53 1024 v (f64_of_Z 100)) ++ "%".

End Percent.

#[global] Instance percent_one_decimal : PercentFormat := Percent.format.

(** The input widgets of the page, with the arguments the script passes. *)
Inductive widget : Type :=
| NumberInput (min_value max_value value : pynum)
| Radio (options : list string)
| Checkbox.

(** The fifteen assignments [st.session_state.patient_data[key] = ...], in
    the order the script runs them. *)
Definition form_script : list (string * widget) :=
  [ ("Age", NumberInput (NInt 18) (NInt 90) (NInt 50));
    ("Sex", Radio ["M"; "F"]);
    ("Albumin", NumberInput (NFloat (f64_lit 20 1)) (NFloat (f64_lit 60 1))
                            (NFloat (f64_lit 40 1)));
    ("Bilirubin", NumberInput (NFloat (f64_lit 3 1)) (NFloat (f64_lit 100 1))
                              (NFloat (f64_lit 10 1)));
    ("ALT", NumberInput (NInt 7) (NInt 2000) (NInt 30));
    ("AST", NumberInput (NInt 10) (NInt 2000) (NInt 30));
    ("ALP", NumberInput (NInt 44) (NInt 500) (NInt 100));
    ("INR", NumberInput (NFloat (f64_lit 5 1)) (NFloat (f64_lit 50 1))
                        (NFloat (f64_lit 10 1)));
    ("Platelets", NumberInput (NInt 20) (NInt 500) (NInt 150));
    ("Sodium", NumberInput (NInt 125) (NInt 145) (NInt 135));
    ("Creatinine", NumberInput (NFloat (f64_lit 5 1)) (NFloat (f64_lit 40 1))
                               (NFloat (f64_lit 10 1)));
    ("Ascites", Checkbox);
    ("Hepatomegaly", Checkbox);
    ("Spiders", Checkbox);
    ("Edema", Checkbox) ].

(** What Streamlit lets a widget return: a number input a number between
    its bounds, a radio one of its options, a checkbox a [bool]. *)
Definition widget_returns (w : widget) (raw : pyval) : bool :=
  match w, raw with
  | NumberInput lo hi _, VInt z => num_le lo (NInt z) && num_le (NInt z) hi
  | NumberInput lo hi _, VFloat f => num_le lo (NFloat f) && num_le (NFloat f) hi
  | Radio options, VStr s => bool_decide (s ∈ options)
  | Checkbox, VBool _ => true
  | _, _ => false
  end.

(** What a widget returns before the user touches it. *)
Definition widget_default (w : widget) : pyval :=
  match w with
  | NumberInput _ _ value => num_val value
  | Radio options => VStr (List.hd "" options)
  | Checkbox => VBool false
  end.

(** The right-hand side of the assignment: the script wraps every checkbox
    in [int(...)] and stores the other widgets' values as they are. *)
Definition stored_value (w : widget) (raw : pyval) : pyval :=
  match w, raw with
  | Checkbox, VBool b => VInt (if b then 1 else 0)
  | _, _ => raw
  end.

(** One run of the script's assignments over the dict kept in the session
    state, [answers] being what the widgets returned, in script order. *)
Definition fill_patient_data (answers : list pyval)
    (session : gmap string pyval) : gmap string pyval :=
  fold_left (fun d kwa => <[kwa.1.1 := stored_value kwa.1.2 kwa.2]> d)
            (zip form_script answers) session.

(** What the page shows after the button was pressed. *)
Inductive page : Type :=
| Results (predicted_stage : string)
          (chart_x : list string) (chart_y : list spec_float)
          (table : list (string * string))
| ErrorBox (message : string).

Section Page.
Context `{FloatRepr} `{PercentFormat}.

(** The body of [if st.button(...):], a [try] around the call of the
    adapter and the rendering, with [st.error] as the handler. *)
Definition on_predict_click (patient_data : pyval) (w : world)
  : page * world :=
  match predict_liver_disease patient_data w with
  | (Return (predicted_stage, probabilities), w') =>
      (Results predicted_stage
               (probabilities.*1) (probabilities.*2)
               (zip (probabilities.*1) (format_percent <$> probabilities.*2)),
       w')
  | (Raise e, w') =>
      (ErrorBox ("⚠️ An error occurred: " ++ exn_msg e), w')
  end.

(** One run of the script: the session dict is created when absent, the
    widgets are read into it, and the button decides whether to predict. *)
Definition script_run (session : option (gmap string pyval))
    (answers : list pyval) (clicked : bool) (w : world)
  : option page * gmap string pyval * world :=
  let patient_data := fill_patient_data answers (default ∅ session) in
  if clicked
  then let '(p, w') := on_predict_click (VDict patient_data) w in
       (Some p, patient_data, w')
  else (None, patient_data, w).

(** Calls of the adapter one after the other, with what each gave. *)
Fixpoint predict_each (records : list pyval) (w : world)
  : list (outcome (string * list (string * spec_float))) * world :=
  match records with
  | [] => ([], w)
  | r :: rest =>
      let '(o, w1) := predict_liver_disease r w in
      let '(os, w2) := predict_each rest w1 in
      (o :: os, w2)
  end.

(** Does the validator accept the record? *)
Definition accepted (patient_data : pyval) : bool :=
  match validate_input_data patient_data with
  | Return (true, _) => true
  | _ => false
  end.

End Page.

(** ** Further specification-side definitions *)

Definition is_nan (n : pynum) : bool :=
  match n with
  | NFloat S754_nan => true
  | _ => false
  end.

(** The values the range check lets through: a number that is a NaN or
    lies between the bounds. *)
Definition passes_range (v : pyval) (lo hi : pynum) : Prop :=
  exists n, as_number v = Some n
            /\ (is_nan n = true \/ (num_le lo n = true /\ num_le n hi = true)).

(** The records the validator accepts, field by field. *)
Definition acceptable (d : gmap string pyval) : Prop :=
  (forall field lo hi, (field, (lo, hi)) ∈ get_feature_ranges ->
     exists v, d !! field = Some v /\ passes_range v lo hi)
  /\ (d !! "Sex" = Some (VStr "M") \/ d !! "Sex" = Some (VStr "F"))
  /\ (forall f, f ∈ boolean_fields ->
        exists v n, d !! f = Some v /\ as_number v = Some n
                    /\ (num_eq n (NInt 0) = true \/ num_eq n (NInt 1) = true)).

(** The model file is replaced, removed or installed behind the back of
    the process. *)
Definition set_model_file (f : file) (w : world) : world :=
  World (module_dir w) f (cache_slot w) (joblib_loads w) (loader_calls w)
        (st_errors w).

(** The last pair with key [k], if any. *)
Definition last_with_key {V} (k : string) (pairs : list (string * V))
  : option V :=
  snd <$> last (filter (fun kv => kv.1 = k) pairs).

(** ** More sample data *)

Definition default_answers : list pyval :=
  (fun kw => widget_default kw.2) <$> form_script.

(** A classifier with a repeated label and one probability too few. *)
Definition odd_classifier : classifier :=
  Classifier
    (fun _ => Return ["Stage1"])
    (fun _ => Return [[f64_lit 2 1; f64_lit 3 1; f64_lit 5 1]])
    ["Stage1"; "Stage2"; "Stage1"; "Stage3"].

(** A record with several faults at once. *)
Definition record_many_faults : gmap string pyval :=
  <["Edema" := VInt 5]>
    (<["Sex" := VStr "x"]>
       (<["ALT" := VInt 1]>
          (<["Bilirubin" := VFloat (f64_lit 110 1)]> sample_record))).

(** A session dict left behind with a stale value and a foreign key. *)
Definition stale_session : gmap string pyval :=
  <["Age" := VStr "fifty"]> extra_keys.

(** * Properties *)

(** Closed decidable facts are settled by evaluation. *)
Ltac by_compute := apply (bool_decide_unpack _); vm_compute; exact I.

(** ** Numbers *)

Lemma ext_compare_antisym (a b : ext) :
  ext_compare b a = CompOpp <$> ext_compare a b.
Proof.
  destruct a, b; simpl; try reflexivity.
  rewrite (Z.min_comm e0 e). f_equal. apply Z.compare_antisym.
Qed.

Lemma num_compare_antisym (a b : pynum) :
  num_compare b a = CompOpp <$> num_compare a b.
Proof. apply ext_compare_antisym. Qed.

Lemma num_le_not_lt (a b : pynum) : num_le a b = true -> num_lt b a = false.
Proof.
  unfold num_le, num_lt. rewrite (num_compare_antisym a b).
  destruct (num_compare a b) as [[]|]; simpl; congruence.
Qed.

Lemma num_le_not_gt (a b : pynum) : num_le a b = true -> num_gt a b = false.
Proof.
  unfold num_le, num_gt. destruct (num_compare a b) as [[]|]; congruence.
Qed.

Lemma as_number_num_val (n : pynum) : as_number (num_val n) = Some n.
Proof. destruct n; reflexivity. Qed.

(** ** The required fields *)

Lemma elem_of_required (f : string) :
  f ∈ required_fields <-> f ∈ required_list.
Proof.
  unfold required_fields, required_list.
  rewrite !elem_of_union, !elem_of_singleton, !elem_of_cons, elem_of_nil.
  tauto.
Qed.

Lemma missing_fields_spec (d : gmap string pyval) (f : string) :
  f ∈ missing_fields d <-> f ∈ required_fields /\ d !! f = None.
Proof.
  unfold missing_fields. rewrite elem_of_difference, not_elem_of_dom. tauto.
Qed.

Lemma missing_fields_empty (d : gmap string pyval) :
  missing_fields d = ∅ <-> forall f, f ∈ required_fields -> is_Some (d !! f).
Proof.
  split.
  - intros He f Hf. destruct (d !! f) eqn:E; [eauto|].
    assert (f ∈ missing_fields d) as Hm by (apply missing_fields_spec; auto).
    rewrite He in Hm. exfalso. exact (not_elem_of_empty _ Hm).
  - intros Hall. apply set_eq. intros f. rewrite missing_fields_spec.
    split.
    + intros [Hf Hn]. destruct (Hall f Hf) as [v Hv]. congruence.
    + intros Hf. exfalso. exact (not_elem_of_empty _ Hf).
Qed.

Lemma catalog_names_required :
  Forall (fun e => e.1 ∈ required_list) get_feature_ranges.
Proof. by_compute. Qed.

Lemma range_fields_required e :
  e ∈ get_feature_ranges -> e.1 ∈ required_fields.
Proof.
  intros He. apply elem_of_required.
  exact (proj1 (Forall_forall _ _) catalog_names_required e He).
Qed.

Lemma boolean_fields_required f :
  f ∈ boolean_fields -> f ∈ required_fields.
Proof.
  intros Hf. apply elem_of_required.
  assert (Forall (fun f => f ∈ required_list) boolean_fields) as Hall
    by by_compute.
  exact (proj1 (Forall_forall _ _) Hall f Hf).
Qed.

Lemma sex_required : "Sex" ∈ required_fields.
Proof. apply elem_of_required. by_compute. Qed.

Lemma catalog_names_NoDup : NoDup (get_feature_ranges.*1).
Proof. by_compute. Qed.

Lemma catalog_names_not_others :
  Forall (fun e => e.1 <> "Sex" /\ e.1 ∉ boolean_fields) get_feature_ranges.
Proof. by_compute. Qed.

Lemma catalog_bounds_behave : forallb bounds_behave get_feature_ranges = true.
Proof. vm_compute. reflexivity. Qed.

(** ** The stages of the validator *)

Section ValidatorFacts.
Context `{FloatRepr}.

Lemma validate_dict (d : gmap string pyval) :
  missing_fields d = ∅ ->
  validate_input_data (VDict d)
  = try_except (validate_fields d)
      (fun e => Return (false, "Validation error: " ++ exn_msg e)).
Proof.
  intros He. unfold validate_input_data, validate_body.
  rewrite bool_decide_eq_true_2 by exact He. reflexivity.
Qed.

Lemma validate_missing (d : gmap string pyval) :
  missing_fields d <> ∅ ->
  validate_input_data (VDict d)
  = Return (false, "Missing required fields: " ++ join_set (missing_fields d)).
Proof.
  intros Hne. unfold validate_input_data, validate_body.
  rewrite bool_decide_eq_false_2 by exact Hne. reflexivity.
Qed.

Lemma check_ranges_None (d : gmap string pyval) rs :
  check_ranges d rs = None <-> Forall (fun e => check_range d e = None) rs.
Proof.
  induction rs as [|e rs IH]; simpl.
  - split; [constructor | reflexivity].
  - rewrite Forall_cons. destruct (check_range d e) eqn:E.
    + split; [discriminate | intros [? _]; discriminate].
    + rewrite IH. tauto.
Qed.

Lemma check_ranges_first (d : gmap string pyval) pre e post r :
  Forall (fun e => check_range d e = None) pre ->
  check_range d e = Some r ->
  check_ranges d (pre ++ e :: post) = Some r.
Proof.
  intros Hpre He. induction Hpre as [|x pre Hx _ IH]; simpl.
  - rewrite He. reflexivity.
  - rewrite Hx. exact IH.
Qed.

Lemma check_range_agree (d d' : gmap string pyval) e :
  d' !! e.1 = d !! e.1 -> check_range d' e = check_range d e.
Proof. destruct e as [f [lo hi]]. simpl. intros ->. reflexivity. Qed.

Lemma check_booleans_agree (d d' : gmap string pyval) fs :
  (forall f, f ∈ fs -> d' !! f = d !! f) ->
  check_booleans d' fs = check_booleans d fs.
Proof.
  induction fs as [|f fs IH]; intros Hag; simpl; [reflexivity|].
  unfold getitem. rewrite (Hag f) by (left).
  destruct (d !! f); simpl; [|reflexivity].
  rewrite IH; [reflexivity|]. intros g Hg. apply Hag. right. exact Hg.
Qed.

Lemma check_sex_agree (d d' : gmap string pyval) :
  d' !! "Sex" = d !! "Sex" -> check_sex d' = check_sex d.
Proof. unfold check_sex, getitem. intros ->. reflexivity. Qed.

(** A check that returns, returns a failure. *)
Lemma check_range_fails (d : gmap string pyval) e r :
  check_range d e = Some r -> r.1 = false.
Proof.
  destruct e as [f [lo hi]]. simpl.
  destruct (d !! f) as [v|]; [|discriminate].
  destruct (as_number v) as [n|]; [|intros [= <-]; reflexivity].
  destruct (num_lt n lo || num_gt n hi); [|discriminate].
  intros [= <-]. reflexivity.
Qed.

Lemma check_ranges_fails (d : gmap string pyval) rs r :
  check_ranges d rs = Some r -> r.1 = false.
Proof.
  induction rs as [|e rs IH]; simpl; [discriminate|].
  destruct (check_range d e) eqn:E; [|exact IH].
  intros [= <-]. exact (check_range_fails _ _ _ E).
Qed.

Lemma check_sex_fails (d : gmap string pyval) r :
  check_sex d = Return (Some r) -> r.1 = false.
Proof.
  unfold check_sex, getitem.
  destruct (d !! "Sex") as [v|]; cbn [bind]; [|discriminate].
  destruct (in_strs v ["M"; "F"]); cbn [negb]; [discriminate|].
  intros [= <-]. reflexivity.
Qed.

Lemma check_booleans_fails (d : gmap string pyval) fs r :
  check_booleans d fs = Return (Some r) -> r.1 = false.
Proof.
  induction fs as [|f fs IH]; simpl; [discriminate|].
  unfold getitem. destruct (d !! f) as [v|]; cbn [bind]; [|discriminate].
  destruct (in_ints v [0; 1]); cbn [negb]; [exact IH|].
  intros [= <-]. reflexivity.
Qed.

(** The record is accepted exactly when every stage lets it through. *)
Lemma validate_accepts_iff (d : gmap string pyval) :
  validate_input_data (VDict d) = Return (true, "")
  <-> missing_fields d = ∅
      /\ check_ranges d get_feature_ranges = None
      /\ check_sex d = Return None
      /\ check_booleans d boolean_fields = Return None.
Proof.
  split.
  - intros Hv. destruct (decide (missing_fields d = ∅)) as [He|Hne].
    2:{ rewrite validate_missing in Hv by exact Hne. discriminate Hv. }
    split; [exact He|]. rewrite validate_dict in Hv by exact He.
    unfold validate_fields in Hv.
    destruct (check_ranges d get_feature_ranges) as [r|] eqn:Er.
    { apply check_ranges_fails in Er. cbn [try_except] in Hv.
      injection Hv as ->. discriminate Er. }
    split; [reflexivity|].
    destruct (check_sex d) as [[r|]|e] eqn:Es; cbn [try_except bind] in Hv;
      [|clear Es|discriminate Hv].
    { apply check_sex_fails in Es. injection Hv as ->. discriminate Es. }
    split; [reflexivity|].
    destruct (check_booleans d boolean_fields) as [[r|]|e] eqn:Eb;
      cbn [try_except bind] in Hv; [|reflexivity|discriminate Hv].
    apply check_booleans_fails in Eb. injection Hv as ->. discriminate Eb.
  - intros (He & Er & Es & Eb). rewrite validate_dict by exact He.
    unfold validate_fields. rewrite Er, Es. cbn [bind]. rewrite Eb. reflexivity.
Qed.

(** The validator reads the record only at the required fields. *)
Lemma validate_agree (d d' : gmap string pyval) :
  (forall f, f ∈ required_fields -> d' !! f = d !! f) ->
  validate_input_data (VDict d') = validate_input_data (VDict d).
Proof.
  intros Hag.
  assert (missing_fields d' = missing_fields d) as Hm.
  { apply set_eq. intros f. rewrite !missing_fields_spec.
    split; intros [Hf Hn]; split; auto; [rewrite <- Hag | rewrite Hag]; auto. }
  assert (validate_fields d' = validate_fields d) as Hf.
  { unfold validate_fields.
    assert (forall rs, (forall e, e ∈ rs -> e ∈ get_feature_ranges) ->
                       check_ranges d' rs = check_ranges d rs) as Hr.
    { induction rs as [|e rs IH]; intros Hsub; simpl; [reflexivity|].
      rewrite (check_range_agree d d' e)
        by (apply Hag, range_fields_required, Hsub; left).
      rewrite IH; [reflexivity|]. intros x Hx. apply Hsub. right. exact Hx. }
    rewrite Hr by auto.
    rewrite (check_sex_agree d d') by exact (Hag "Sex" sex_required).
    rewrite (check_booleans_agree d d')
      by (intros f Hfb; apply Hag, boolean_fields_required, Hfb).
    reflexivity. }
  unfold validate_input_data, validate_body. rewrite Hm, Hf. reflexivity.
Qed.

(** Overwriting one ranged field leaves every other check as it was. *)
Lemma insert_range_field (d : gmap string pyval) field lo hi v :
  (field, (lo, hi)) ∈ get_feature_ranges ->
  missing_fields d = ∅ ->
  missing_fields (<[field := v]> d) = ∅
  /\ check_sex (<[field := v]> d) = check_sex d
  /\ check_booleans (<[field := v]> d) boolean_fields
     = check_booleans d boolean_fields
  /\ exists pre post,
       get_feature_ranges = (pre ++ (field, (lo, hi)) :: post)%list
       /\ Forall (fun e => check_range (<[field := v]> d) e = check_range d e)
            (pre ++ post)%list.
Proof.
  intros Hin He.
  destruct (proj1 (Forall_forall _ _) catalog_names_not_others _ Hin)
    as [Hsex Hbool]. simpl in Hsex, Hbool.
  split; [|split; [|split]].
  - apply missing_fields_empty. intros f Hf.
    apply lookup_insert_is_Some'. right.
    exact (proj1 (missing_fields_empty d) He f Hf).
  - apply check_sex_agree. apply lookup_insert_ne. exact Hsex.
  - apply check_booleans_agree. intros f Hf. apply lookup_insert_ne.
    intros ->. exact (Hbool Hf).
  - destruct (list_elem_of_split _ _ Hin) as (pre & post & Hsplit).
    exists pre, post. split; [exact Hsplit|].
    pose proof catalog_names_NoDup as Hnd. rewrite Hsplit in Hnd.
    rewrite fmap_app, fmap_cons in Hnd. simpl in Hnd.
    apply NoDup_app in Hnd as (_ & Hpre & Hpost).
    apply NoDup_cons in Hpost as [Hpost _].
    apply Forall_forall. intros e Helem.
    apply check_range_agree, lookup_insert_ne. intros Heq.
    apply elem_of_app in Helem as [Hl|Hr].
    + apply (Hpre e.1); [apply list_elem_of_fmap; eauto|].
      rewrite <- Heq. left.
    + apply Hpost. rewrite Heq. apply list_elem_of_fmap; eauto.
Qed.

Lemma insert_passing_value (d : gmap string pyval) field lo hi v :
  (field, (lo, hi)) ∈ get_feature_ranges ->
  validate_input_data (VDict d) = Return (true, "") ->
  check_range (<[field := v]> d) (field, (lo, hi)) = None ->
  validate_input_data (VDict (<[field := v]> d)) = Return (true, "").
Proof.
  intros Hin Hok Hpass.
  apply validate_accepts_iff in Hok as (He & Er & Es & Eb).
  destruct (insert_range_field d field lo hi v Hin He)
    as (He' & Es' & Eb' & pre & post & Hsplit & Hrest).
  apply validate_accepts_iff. rewrite Es', Eb'.
  split; [exact He'|]. split; [|split; assumption].
  apply check_ranges_None. rewrite Hsplit.
  apply check_ranges_None in Er. rewrite Hsplit in Er.
  apply Forall_app in Er as [Epre Epost].
  apply Forall_cons in Epost as [_ Epost].
  apply Forall_app in Hrest as [Hpre Hpost].
  apply Forall_app. split; [|apply Forall_cons; split; [exact Hpass|]].
  - eapply Forall_impl; [apply Forall_and; split; [exact Hpre|exact Epre]|].
    intros e [-> ?]. assumption.
  - eapply Forall_impl; [apply Forall_and; split; [exact Hpost|exact Epost]|].
    intros e [-> ?]. assumption.
Qed.

Lemma insert_failing_value (d : gmap string pyval) field lo hi v r :
  (field, (lo, hi)) ∈ get_feature_ranges ->
  validate_input_data (VDict d) = Return (true, "") ->
  check_range (<[field := v]> d) (field, (lo, hi)) = Some r ->
  validate_input_data (VDict (<[field := v]> d)) = Return r.
Proof.
  intros Hin Hok Hfail.
  apply validate_accepts_iff in Hok as (He & Er & _ & _).
  destruct (insert_range_field d field lo hi v Hin He)
    as (He' & _ & _ & pre & post & Hsplit & Hrest).
  rewrite validate_dict by exact He'. unfold validate_fields.
  rewrite Hsplit.
  apply check_ranges_None in Er. rewrite Hsplit in Er.
  apply Forall_app in Er as [Epre _].
  apply Forall_app in Hrest as [Hpre _].
  rewrite (check_ranges_first _ pre _ post r); [reflexivity| |exact Hfail].
  eapply Forall_impl; [apply Forall_and; split; [exact Hpre|exact Epre]|].
  intros e [-> ?]. assumption.
Qed.

(** The range check on a record that holds the number [n] in [field]. *)
Lemma check_range_number (d : gmap string pyval) field lo hi n :
  d !! field = Some (num_val n) ->
  check_range d (field, (lo, hi))
  = if num_lt n lo || num_gt n hi
    then Some (false, field ++ " must be between " ++ num_str lo
                         ++ " and " ++ num_str hi)
    else None.
Proof. simpl. intros ->. rewrite as_number_num_val. reflexivity. Qed.

Lemma in_strs_M_F (v : pyval) :
  in_strs v ["M"; "F"] = true <-> v = VStr "M" \/ v = VStr "F".
Proof.
  unfold in_strs. cbn [existsb]. rewrite !orb_true_iff.
  destruct v; cbn [eq_str]; try (intuition discriminate).
  rewrite !bool_decide_eq_true. intuition congruence.
Qed.

(** The boolean loop stops at the first value that is not [== 0] or [== 1]. *)
Lemma check_booleans_find (d : gmap string pyval) fs :
  (forall f, f ∈ fs -> is_Some (d !! f)) ->
  check_booleans d fs
  = Return (match find (fun f => match d !! f with
                                 | Some v => negb (in_ints v [0; 1])
                                 | None => false
                                 end) fs with
            | Some f => Some (false, f ++ " must be 0 or 1")
            | None => None
            end).
Proof.
  induction fs as [|f fs IH]; intros Hall; [reflexivity|].
  cbn [check_booleans find]. unfold getitem.
  destruct (Hall f) as [v Hv]; [left|]. rewrite Hv. cbn [bind].
  destruct (negb (in_ints v [0; 1])); [reflexivity|].
  apply IH. intros g Hg. apply Hall. right. exact Hg.
Qed.

Lemma find_all_false {A} (p : A -> bool) (l : list A) :
  (forall x, x ∈ l -> p x = false) -> find p l = None.
Proof.
  induction l as [|x l IH]; intros Hall; [reflexivity|].
  cbn [find]. rewrite (Hall x) by left.
  apply IH. intros y Hy. apply Hall. right. exact Hy.
Qed.

Lemma required_by_stage :
  Forall (fun f => f ∈ get_feature_ranges.*1 \/ f = "Sex" \/ f ∈ boolean_fields)
         required_list.
Proof. by_compute. Qed.

Lemma valid_fields_accepted (d : gmap string pyval) :
  valid_fields d -> validate_input_data (VDict d) = Return (true, "").
Proof.
  intros (Hr & Hs & Hb). apply validate_accepts_iff.
  split; [|split; [|split]].
  - apply missing_fields_empty. intros f Hf. apply elem_of_required in Hf.
    destruct (proj1 (Forall_forall _ _) required_by_stage f Hf)
      as [Hc | [-> | Hc]].
    + apply list_elem_of_fmap in Hc as ([g [lo hi]] & -> & Hin).
      destruct (Hr g lo hi Hin) as (v & Hv & _). eauto.
    + destruct Hs as [-> | ->]; eauto.
    + destruct (Hb f Hc) as [-> | ->]; eauto.
  - apply check_ranges_None, Forall_forall. intros [f [lo hi]] Hin.
    destruct (Hr f lo hi Hin) as (v & Hv & n & Hn & Hlo & Hhi).
    simpl. rewrite Hv, Hn.
    rewrite (num_le_not_lt _ _ Hlo), (num_le_not_gt _ _ Hhi). reflexivity.
  - unfold check_sex, getitem. destruct Hs as [-> | ->]; reflexivity.
  - rewrite check_booleans_find.
    + replace (find _ boolean_fields) with (@None string); [reflexivity|].
      symmetry. apply find_all_false. intros f Hf.
      destruct (Hb f Hf) as [-> | ->]; reflexivity.
    + intros f Hf. destruct (Hb f Hf) as [-> | ->]; eauto.
Qed.

End ValidatorFacts.

(** ** Claims about the validator *)

Section ValidatorClaims.
Context `{FloatRepr}.

(** C1 (amended): for a record that passes the missing-field, range and Sex
    checks, the validator returns [(False, "<field> must be 0 or 1")] for
    the first of Ascites, Hepatomegaly, Spiders, Edema whose value does not
    compare equal to 0 or to 1, and accepts the record when each of the four
    compares equal to 0 or 1.  The values 2, -1 and the string "1" are
    rejected; the integers 0 and 1 are accepted, and so are the float 1.0
    and True, which compare equal to 1. *)
Theorem boolean_fields_compared_by_equality (d : gmap string pyval) :
  missing_fields d = ∅ ->
  check_ranges d get_feature_ranges = None ->
  check_sex d = Return None ->
  validate_input_data (VDict d)
  = match first_offending d with
    | Some f => Return (false, f ++ " must be 0 or 1")
    | None => Return (true, "")
    end
  /\ (forall f, first_offending d = Some f ->
        f ∈ boolean_fields
        /\ exists v, d !! f = Some v /\ in_ints v [0; 1] = false)
  /\ (first_offending d = None <->
        forall f, f ∈ boolean_fields ->
          exists v, d !! f = Some v /\ in_ints v [0; 1] = true)
  /\ in_ints (VInt 2) [0; 1] = false
  /\ in_ints (VInt (-1)) [0; 1] = false
  /\ in_ints (VStr "1") [0; 1] = false
  /\ in_ints (VInt 0) [0; 1] = true
  /\ in_ints (VInt 1) [0; 1] = true
  /\ in_ints (VFloat (f64_lit 10 1)) [0; 1] = true
  /\ in_ints (VBool true) [0; 1] = true.
Proof.
  intros He Er Es.
  assert (forall f, f ∈ boolean_fields -> is_Some (d !! f)) as Hpresent.
  { intros f Hf. apply (proj1 (missing_fields_empty d) He).
    apply boolean_fields_required, Hf. }
  split; [|split; [|split; [|repeat split]]].
  - rewrite validate_dict by exact He. unfold validate_fields.
    rewrite Er, Es. cbn [bind].
    rewrite check_booleans_find by exact Hpresent.
    unfold first_offending. cbn [bind].
    destruct (find _ boolean_fields); reflexivity.
  - unfold first_offending. intros f Hf.
    apply find_some in Hf as [Hin Hbad]. apply list_elem_of_In in Hin.
    split; [exact Hin|]. destruct (d !! f) as [v|]; [|discriminate Hbad].
    exists v. split; [reflexivity|]. apply negb_true_iff, Hbad.
  - unfold first_offending. split.
    + intros Hnone f Hf. destruct (Hpresent f Hf) as [v Hv].
      exists v. split; [exact Hv|].
      pose proof (find_none _ _ Hnone f (proj1 (list_elem_of_In _ _) Hf)) as Hp.
      cbn beta in Hp. rewrite Hv in Hp. apply negb_false_iff, Hp.
    + intros Hall. apply find_all_false. intros f Hf.
      destruct (Hall f Hf) as (v & -> & ->). reflexivity.
Qed.

(** C2: for each of the ten catalog entries, a record whose value for the
    field is the minimum or the maximum passes that field's range check,
    and an accepted record stays accepted when the field is set to either
    bound; setting it one unit below the minimum or one unit above the
    maximum makes the validator return
    [(False, "<field> must be between <min> and <max>")]. *)
Theorem range_bounds_inclusive (d : gmap string pyval) field lo hi :
  (field, (lo, hi)) ∈ get_feature_ranges ->
  validate_input_data (VDict d) = Return (true, "") ->
  (forall d' : gmap string pyval,
     d' !! field = Some (num_val lo) \/ d' !! field = Some (num_val hi) ->
     check_range d' (field, (lo, hi)) = None)
  /\ validate_input_data (VDict (<[field := num_val lo]> d)) = Return (true, "")
  /\ validate_input_data (VDict (<[field := num_val hi]> d)) = Return (true, "")
  /\ validate_input_data (VDict (<[field := num_val (num_pred lo)]> d))
     = Return (false, field ++ " must be between " ++ num_str lo
                        ++ " and " ++ num_str hi)
  /\ validate_input_data (VDict (<[field := num_val (num_succ hi)]> d))
     = Return (false, field ++ " must be between " ++ num_str lo
                        ++ " and " ++ num_str hi).
Proof.
  intros Hin Hok.
  pose proof (proj1 (forallb_forall _ _) catalog_bounds_behave _
                (proj1 (list_elem_of_In _ _) Hin)) as Hb.
  cbn [bounds_behave] in Hb.
  apply andb_true_iff in Hb as [Hb Hsucc].
  apply andb_true_iff in Hb as [Hb Hpred].
  apply andb_true_iff in Hb as [Hlo Hhi].
  apply negb_true_iff in Hlo, Hhi.
  assert (forall d' : gmap string pyval,
            d' !! field = Some (num_val lo) \/ d' !! field = Some (num_val hi) ->
            check_range d' (field, (lo, hi)) = None) as Hbound.
  { intros d' [Hv | Hv]; rewrite (check_range_number _ _ _ _ _ Hv).
    - rewrite Hlo. reflexivity.
    - rewrite Hhi. reflexivity. }
  split; [exact Hbound|]. split; [|split; [|split]].
  - apply (insert_passing_value d field lo hi); [assumption..|].
    apply Hbound. left. apply lookup_insert_eq.
  - apply (insert_passing_value d field lo hi); [assumption..|].
    apply Hbound. right. apply lookup_insert_eq.
  - apply (insert_failing_value d field lo hi); [assumption..|].
    rewrite (check_range_number _ _ _ _ (num_pred lo))
      by apply lookup_insert_eq.
    rewrite Hpred. reflexivity.
  - apply (insert_failing_value d field lo hi); [assumption..|].
    rewrite (check_range_number _ _ _ _ (num_succ hi))
      by apply lookup_insert_eq.
    rewrite Hsucc, orb_true_r. reflexivity.
Qed.

(** C3: a record that lacks one or more of the fifteen required fields is
    rejected with "Missing required fields: " followed by the missing
    names, each once and no other, joined by ", "; the answer is settled
    by the key set alone, so no value is looked at and no range, Sex or
    boolean check takes part. *)
Theorem missing_fields_reported (d : gmap string pyval) :
  (exists f, f ∈ required_fields /\ d !! f = None) ->
  exists names : list string,
    validate_input_data (VDict d)
    = Return (false, "Missing required fields: " ++ String.concat ", " names)
    /\ NoDup names
    /\ (forall f, f ∈ names <-> f ∈ required_fields /\ d !! f = None)
    /\ (forall d' : gmap string pyval,
          dom d' = dom d ->
          validate_input_data (VDict d') = validate_input_data (VDict d)).
Proof.
  intros (f0 & Hf0 & Hn0).
  assert (missing_fields d <> ∅) as Hne.
  { intros He. apply (proj1 (missing_fields_empty d) He) in Hf0.
    rewrite Hn0 in Hf0. destruct Hf0 as [? [=]]. }
  exists (elements (missing_fields d)). split; [|split; [|split]].
  - apply validate_missing, Hne.
  - apply NoDup_elements.
  - intros f. rewrite elem_of_elements. apply missing_fields_spec.
  - intros d' Hdom.
    assert (missing_fields d' = missing_fields d) as Hm
      by (unfold missing_fields; rewrite Hdom; reflexivity).
    rewrite !validate_missing by (rewrite ?Hm; exact Hne).
    rewrite Hm. reflexivity.
Qed.

(** C7: whatever is passed, a dict or not, the validator returns a pair and
    never raises; a fault raised inside the [try] block comes back as
    [(False, "Validation error: " + str(e))]. *)
Theorem validate_never_raises (patient_data : pyval) :
  exists ok msg,
    validate_input_data patient_data = Return (ok, msg)
    /\ forall e, validate_body patient_data = Raise e ->
         ok = false /\ msg = "Validation error: " ++ exn_msg e.
Proof.
  unfold validate_input_data.
  destruct (validate_body patient_data) as [[ok msg]|e]; cbn [try_except].
  - exists ok, msg. split; [reflexivity|]. intros e [=].
  - eexists _, _. split; [reflexivity|]. intros e' [= <-]. split; reflexivity.
Qed.

(** C8: for a record that passes the missing-field and range checks, a Sex
    value other than the string "M" or the string "F" makes the validator
    return [(False, "Sex must be either 'M' or 'F'")]; with "M" or "F" the
    Sex check lets the record through. *)
Theorem sex_must_be_M_or_F (d : gmap string pyval) (sex : pyval) :
  missing_fields d = ∅ ->
  check_ranges d get_feature_ranges = None ->
  d !! "Sex" = Some sex ->
  (sex <> VStr "M" -> sex <> VStr "F" ->
   validate_input_data (VDict d)
   = Return (false, "Sex must be either 'M' or 'F'"))
  /\ (sex = VStr "M" \/ sex = VStr "F" -> check_sex d = Return None).
Proof.
  intros He Er Hs. split.
  - intros HM HF. rewrite validate_dict by exact He.
    unfold validate_fields, check_sex, getitem. rewrite Er, Hs. cbn [bind].
    destruct (in_strs sex ["M"; "F"]) eqn:E; [|reflexivity].
    apply in_strs_M_F in E as [? | ?]; contradiction.
  - intros Hmf. unfold check_sex, getitem. rewrite Hs. cbn [bind].
    rewrite (proj2 (in_strs_M_F sex) Hmf). reflexivity.
Qed.

(** C10: a record whose fifteen required fields hold valid values is
    accepted with an empty message whatever other keys it carries. *)
Theorem extra_keys_ignored (d extra : gmap string pyval) :
  valid_fields d ->
  dom extra ## required_fields ->
  validate_input_data (VDict (d ∪ extra)) = Return (true, "").
Proof.
  intros Hvalid Hdisj.
  rewrite (validate_agree d (d ∪ extra)).
  - apply valid_fields_accepted, Hvalid.
  - intros f Hf. apply lookup_union_l.
    apply not_elem_of_dom. intros Hin. exact (Hdisj f Hin Hf).
Qed.

End ValidatorClaims.

(** ** The cached loader *)

Lemma cache_None (w : world) : cache w = None <-> cache_slot w = None.
Proof. unfold cache. destruct (cache_slot w); cbn; split; congruence. Qed.

Lemma cache_model (w : world) (h : handle) :
  cache w = Some (Some h) <-> cache_slot w = Some (CachedModel h).
Proof.
  unfold cache. destruct (cache_slot w) as [[h'|drawn]|]; cbn;
    split; congruence.
Qed.

Lemma cache_failure (w : world) :
  cache w = Some None <-> exists drawn, cache_slot w = Some (CachedFailure drawn).
Proof.
  unfold cache. destruct (cache_slot w) as [[h'|drawn]|]; cbn; split;
    try congruence; eauto; intros [d [=]].
Qed.

(** The function under the decorator draws nothing when it returns a
    handle, so a cached handle has no elements to keep. *)
Lemma load_model_fn_draws_only_on_failure (w w' : world) (h : handle) :
  load_model_fn w = (Some h, w') -> st_errors w' = st_errors w.
Proof.
  unfold load_model_fn, path_exists, joblib_load.
  destruct (model_file w) as [|e|m]; cbn; intros Heq;
    [discriminate Heq | discriminate Heq |].
  injection Heq as _ <-. reflexivity.
Qed.

(** A hit on a cached model leaves the page alone. *)
Lemma load_model_hit (w : world) (h : handle) :
  cache w = Some (Some h) -> load_model w = (Some h, count_call w).
Proof.
  intros Hc. apply cache_model in Hc.
  unfold load_model, cache_resource. cbn. rewrite Hc. reflexivity.
Qed.

(** A hit on a cached failure draws the failure's elements again. *)
Lemma load_model_hit_failure (w : world) (drawn : list string) :
  cache_slot w = Some (CachedFailure drawn) ->
  load_model w = (None, replay drawn (count_call w)).
Proof.
  intros Hc. unfold load_model, cache_resource. cbn. rewrite Hc. reflexivity.
Qed.

Lemma load_model_hit_effect (w : world) (v : option handle) :
  cache w = Some v ->
  exists w1,
    load_model w = (v, w1)
    /\ cache_slot w1 = cache_slot w
    /\ joblib_loads w1 = joblib_loads w
    /\ loader_calls w1 = S (loader_calls w)
    /\ model_file w1 = model_file w
    /\ module_dir w1 = module_dir w.
Proof.
  intros Hc. destruct v as [h|].
  - rewrite (load_model_hit w h Hc). eexists. repeat split; reflexivity.
  - apply cache_failure in Hc as [drawn Hc].
    rewrite (load_model_hit_failure w drawn Hc).
    eexists. repeat split; reflexivity.
Qed.

Lemma load_model_miss (w : world) :
  cache w = None ->
  exists v w1,
    load_model w = (v, w1)
    /\ cache w1 = Some v
    /\ (joblib_loads w1 <= S (joblib_loads w))%nat
    /\ (v = None <-> is_Some (load_failure w)).
Proof.
  intros Hc. apply cache_None in Hc.
  unfold load_model, cache_resource, load_model_fn, load_failure.
  cbn. rewrite Hc. unfold path_exists, joblib_load. cbn.
  destruct (model_file w) as [|e|m]; cbn; eexists _, _;
    (split; [reflexivity|]); cbn; repeat split; auto; try lia.
  - intros [=].
  - intros [? [=]].
Qed.

Lemma load_model_times_hit (n : nat) (w : world) (v : option handle) :
  cache w = Some v ->
  exists w',
    load_model_times n w = (replicate n v, w')
    /\ cache w' = Some v
    /\ joblib_loads w' = joblib_loads w
    /\ loader_calls w' = (loader_calls w + n)%nat.
Proof.
  revert w. induction n as [|n IH]; intros w Hc; cbn [load_model_times].
  - exists w. repeat split; auto.
  - destruct (load_model_hit_effect w v Hc) as (w1 & -> & Hs & Hj & Hl & _).
    assert (cache w1 = Some v) as Hc1 by (unfold cache in *; rewrite Hs; exact Hc).
    destruct (IH w1 Hc1) as (w' & -> & Hc' & Hj' & Hl').
    exists w'. cbn [replicate]. repeat split; auto; lia.
Qed.

(** The first call in a fresh process, by what lies at the model path. *)
Lemma load_model_fresh (dir : string) (f : file) :
  exists w1,
    load_model (fresh_process dir f)
    = (match f with Pickled m => Some (Handle 0 m) | _ => None end, w1)
    /\ cache w1 = Some (match f with Pickled m => Some (Handle 0 m) | _ => None end)
    /\ joblib_loads w1 = match f with Absent => 0%nat | _ => 1%nat end
    /\ loader_calls w1 = 1%nat.
Proof. destruct f; eexists; repeat split; reflexivity. Qed.

(** ** The probability mapping *)

Lemma dict_set_fresh {V} (d : list (string * V)) k v :
  k ∉ d.*1 -> dict_set d k v = (d ++ [(k, v)])%list.
Proof.
  induction d as [|[k' v'] d IH]; intros Hk; [reflexivity|].
  cbn [dict_set]. rewrite fmap_cons in Hk. cbn in Hk.
  apply not_elem_of_cons in Hk as [Hne Hk].
  rewrite bool_decide_eq_false_2 by congruence.
  rewrite IH by exact Hk. reflexivity.
Qed.

Lemma dict_comprehension_distinct {V W} (f : V -> W) (pairs : list (string * V)) :
  NoDup (pairs.*1) ->
  dict_comprehension f pairs = (fun kv => (kv.1, f kv.2)) <$> pairs.
Proof.
  unfold dict_comprehension.
  assert (forall acc : list (string * W),
            NoDup (acc.*1 ++ pairs.*1) ->
            fold_left (fun d kv => dict_set d kv.1 (f kv.2)) pairs acc
            = (acc ++ ((fun kv => (kv.1, f kv.2)) <$> pairs))%list) as Hgen.
  { induction pairs as [|[k v] pairs IH]; intros acc Hnd; cbn [fold_left].
    - rewrite fmap_nil, app_nil_r. reflexivity.
    - rewrite fmap_cons in Hnd. cbn in Hnd.
      apply NoDup_app in Hnd as (Hacc & Hdisj & Hps).
      apply NoDup_cons in Hps as [Hk Hps].
      rewrite dict_set_fresh by (intros Hin; apply (Hdisj k Hin); left).
      rewrite IH.
      + rewrite fmap_cons, <- app_assoc. reflexivity.
      + rewrite fmap_app. cbn. apply NoDup_app. split; [|split].
        * apply NoDup_app. split; [exact Hacc|]. split; [|apply NoDup_singleton].
          intros x Hx Hx'. apply list_elem_of_singleton in Hx'. subst x.
          apply (Hdisj k Hx). left.
        * intros x Hx Hx'. apply elem_of_app in Hx as [Hx|Hx].
          -- apply (Hdisj x Hx). right. exact Hx'.
          -- apply list_elem_of_singleton in Hx. subst x. exact (Hk Hx').
        * exact Hps. }
  intros Hnd. rewrite Hgen by exact Hnd. reflexivity.
Qed.

Lemma zip_keys_distinct {V} (ks : list string) (vs : list V) :
  NoDup ks -> NoDup ((zip ks vs).*1).
Proof.
  revert vs. induction ks as [|k ks IH]; intros vs Hnd; [constructor|].
  destruct vs as [|v vs]; [constructor|].
  apply NoDup_cons in Hnd as [Hk Hnd]. cbn. apply NoDup_cons. split.
  - intros Hin. apply list_elem_of_fmap in Hin as ([k' v'] & -> & Hin).
    apply elem_of_zip_l in Hin. exact (Hk Hin).
  - apply IH, Hnd.
Qed.

Lemma dict_get_zip {V} (ks : list string) (vs : list V) (i : nat) k v :
  NoDup ks -> ks !! i = Some k -> vs !! i = Some v ->
  dict_get (zip ks vs) k = Some v.
Proof.
  revert vs i. induction ks as [|k0 ks IH]; intros vs i Hnd Hk Hv.
  - destruct i; discriminate Hk.
  - destruct vs as [|v0 vs]; [destruct i; discriminate Hv|].
    apply NoDup_cons in Hnd as [Hk0 Hnd]. cbn [zip zip_with dict_get].
    destruct i as [|i]; cbn in Hk, Hv.
    + injection Hk as ->. injection Hv as ->.
      rewrite bool_decide_eq_true_2 by reflexivity. reflexivity.
    + rewrite bool_decide_eq_false_2.
      * exact (IH vs i Hnd Hk Hv).
      * intros ->. apply Hk0. exact (list_elem_of_lookup_2 _ _ _ Hk).
Qed.

(** ** Claims about the loader and the adapter *)

Section AdapterClaims.
Context `{FloatRepr}.

(** C4: when the validator returns [(False, msg)], the adapter raises
    [ValueError(msg)] and leaves the process state as it was: [load_model]
    is not called and nothing is deserialized.  Whenever a call of the
    adapter did call [load_model], the validator had accepted the record. *)
Theorem invalid_input_never_loads (patient_data : pyval) (w : world) :
  (forall msg,
     validate_input_data patient_data = Return (false, msg) ->
     predict_liver_disease patient_data w = (Raise (Exn ValueError msg), w))
  /\ (forall r w',
        predict_liver_disease patient_data w = (r, w') ->
        loader_calls w' <> loader_calls w ->
        exists msg, validate_input_data patient_data = Return (true, msg)).
Proof.
  unfold predict_liver_disease. split.
  - intros msg ->. reflexivity.
  - intros r w'.
    destruct (validate_input_data patient_data) as [[[|] msg]|e]; cbn [negb].
    + intros _ _. exists msg. reflexivity.
    + intros [= _ <-] Hne. contradiction.
    + intros [= _ <-] Hne. contradiction.
Qed.

(** C5: when nothing is cached and the model file is absent or cannot be
    deserialized, [load_model] returns [None], not a handle, and reports
    "Error loading model: <reason>" on the page; the adapter then raises
    [RuntimeError("Failed to load model")] for a record the validator
    accepted, before any inference.  A later call meets the cached
    failure: the same error is raised, the error line is drawn on the
    page again, and nothing is deserialized. *)
Theorem load_failure_surfaces (w : world) (reason : string) :
  cache w = None ->
  load_failure w = Some reason ->
  exists w',
    load_model w = (None, w')
    /\ st_errors w'
       = (st_errors w ++ [("Error loading model: " ++ reason)%string])%list
    /\ forall patient_data msg,
         validate_input_data patient_data = Return (true, msg) ->
         predict_liver_disease patient_data w
         = (Raise (Exn RuntimeError "Failed to load model"), w')
         /\ exists w'',
              predict_liver_disease patient_data w'
              = (Raise (Exn RuntimeError "Failed to load model"), w'')
              /\ st_errors w''
                 = (st_errors w'
                      ++ [("Error loading model: " ++ reason)%string])%list
              /\ joblib_loads w'' = joblib_loads w'.
Proof.
  intros Hc Hfail. apply cache_None in Hc.
  assert (exists w', load_model w = (None, w')
            /\ cache_slot w'
               = Some (CachedFailure
                         [("Error loading model: " ++ reason)%string])
            /\ st_errors w'
               = (st_errors w ++ [("Error loading model: " ++ reason)%string])%list)
    as (w' & Hload & Hc' & Herr).
  { unfold load_model, cache_resource, load_model_fn, load_failure in *.
    cbn. rewrite Hc. unfold path_exists, joblib_load. cbn.
    destruct (model_file w) as [|e|m]; cbn; [| |discriminate Hfail];
      injection Hfail as <-; eexists;
      (split; [reflexivity|]); cbn; rewrite drop_app_length;
      split; reflexivity. }
  exists w'. split; [exact Hload|]. split; [exact Herr|].
  intros pd msg Hv. unfold predict_liver_disease. rewrite Hv. cbn [negb].
  rewrite Hload, (load_model_hit_failure w' _ Hc'). split; [reflexivity|].
  eexists. split; [reflexivity|]. split; reflexivity.
Qed.

(** C6: for a record the validator accepts and a loaded classifier whose
    [predict] and [predict_proba] answer, the adapter returns the first
    prediction as the stage and the mapping built from
    [zip(classes_, probabilities)]; with distinct class labels that
    mapping is the zipped list itself, in the classifier's order, and it
    maps label [i] to probability [i]. *)
Theorem prediction_pairs_positionally
    (patient_data : pyval) (w w' : world) (h : handle) (msg : string)
    (stage : string) (stages : list string)
    (row : list spec_float) (rows : list (list spec_float)) :
  validate_input_data patient_data = Return (true, msg) ->
  load_model w = (Some h, w') ->
  predict (obj h) [patient_data] = Return (stage :: stages) ->
  predict_proba (obj h) [patient_data] = Return (row :: rows) ->
  predict_liver_disease patient_data w
  = (Return (stage, dict_comprehension id (zip (classes_ (obj h)) row)), w')
  /\ (NoDup (classes_ (obj h)) ->
      dict_comprehension id (zip (classes_ (obj h)) row)
      = zip (classes_ (obj h)) row
      /\ forall (i : nat) label p,
           classes_ (obj h) !! i = Some label ->
           row !! i = Some p ->
           dict_get (dict_comprehension id (zip (classes_ (obj h)) row)) label
           = Some p).
Proof.
  intros Hv Hload Hp Hpp. split.
  - unfold predict_liver_disease, run_inference.
    rewrite Hv. cbn [negb]. rewrite Hload, Hp. cbn [bind first].
    rewrite Hpp. reflexivity.
  - intros Hnd.
    assert (dict_comprehension id (zip (classes_ (obj h)) row)
            = zip (classes_ (obj h)) row) as Heq.
    { rewrite dict_comprehension_distinct by (apply zip_keys_distinct, Hnd).
      rewrite <- (list_fmap_id (zip _ _)) at 2.
      apply list_fmap_ext. intros _ [k v] _. reflexivity. }
    split; [exact Heq|]. intros i label p Hl Hr. rewrite Heq.
    exact (dict_get_zip _ _ i label p Hnd Hl Hr).
Qed.

End AdapterClaims.

(** C9: [n] calls of [load_model] in a process that starts with an empty
    cache execute [joblib.load] at most once (once for a file that is
    there, never for an absent one), and all return one and the same
    object: the classifier deserialized from a readable file by the first
    call, or [None] when the first call failed. *)
Theorem load_model_deserializes_once (dir : string) (f : file) (n : nat) :
  exists w',
    load_model_times n (fresh_process dir f)
    = (replicate n (match f with
                    | Pickled m => Some (Handle 0 m)
                    | _ => None
                    end), w')
    /\ joblib_loads w' = match n, f with
                         | O, _ => 0%nat
                         | S _, Absent => 0%nat
                         | S _, _ => 1%nat
                         end
    /\ (joblib_loads w' <= 1)%nat
    /\ loader_calls w' = n.
Proof.
  destruct n as [|n].
  - exists (fresh_process dir f). cbn. repeat split; auto.
  - destruct (load_model_fresh dir f) as (w1 & Hload & Hc & Hj & Hl).
    destruct (load_model_times_hit n w1 _ Hc) as (w' & Ht & _ & Hj' & Hl').
    exists w'. cbn [load_model_times replicate]. rewrite Hload, Ht.
    split; [reflexivity|]. rewrite Hj', Hl', Hj, Hl.
    split; [destruct f; reflexivity|]. split; [destruct f; lia | lia].
Qed.

(** ** The claims at sample inputs *)

(** C1, as first stated, fails: a record that passes every earlier check
    and holds the float 1.0 in Ascites is accepted. *)
Lemma float_flag_accepted :
  missing_fields record_float_flag = ∅
  /\ check_ranges record_float_flag get_feature_ranges = None
  /\ check_sex record_float_flag = Return None
  /\ record_float_flag !! "Ascites" = Some (VFloat (f64_lit 10 1))
  /\ validate_input_data (VDict record_float_flag) = Return (true, "").
Proof. repeat split; vm_compute; reflexivity. Qed.

Lemma boolean_fields_compared_by_equality_witness :
  missing_fields record_spiders_2 = ∅
  /\ check_ranges record_spiders_2 get_feature_ranges = None
  /\ check_sex record_spiders_2 = Return None
  /\ validate_input_data (VDict record_spiders_2)
     = Return (false, "Spiders must be 0 or 1").
Proof.
  assert (missing_fields record_spiders_2 = ∅) as He
    by (vm_compute; reflexivity).
  assert (check_ranges record_spiders_2 get_feature_ranges = None) as Er
    by (vm_compute; reflexivity).
  assert (check_sex record_spiders_2 = Return None) as Es
    by (vm_compute; reflexivity).
  split; [exact He|]. split; [exact Er|]. split; [exact Es|].
  destruct (boolean_fields_compared_by_equality record_spiders_2 He Er Es)
    as [Hv _].
  rewrite Hv. vm_compute. reflexivity.
Defined.

Lemma range_bounds_inclusive_witness :
  ("Age", (NInt 18, NInt 90)) ∈ get_feature_ranges
  /\ validate_input_data (VDict sample_record) = Return (true, "")
  /\ validate_input_data (VDict (<["Age" := VInt 18]> sample_record))
     = Return (true, "")
  /\ validate_input_data (VDict (<["Age" := VInt 90]> sample_record))
     = Return (true, "")
  /\ validate_input_data (VDict (<["Age" := VInt 17]> sample_record))
     = Return (false, "Age must be between 18 and 90")
  /\ validate_input_data (VDict (<["Age" := VInt 91]> sample_record))
     = Return (false, "Age must be between 18 and 90").
Proof.
  assert (("Age", (NInt 18, NInt 90)) ∈ get_feature_ranges) as Hin by left.
  assert (validate_input_data (VDict sample_record) = Return (true, ""))
    as Hok by (vm_compute; reflexivity).
  split; [exact Hin|]. split; [exact Hok|].
  exact (proj2 (range_bounds_inclusive sample_record "Age" (NInt 18) (NInt 90)
                  Hin Hok)).
Defined.

Lemma missing_fields_reported_witness :
  (exists f, f ∈ required_fields /\ record_without_age_sex !! f = None)
  /\ exists names : list string,
       validate_input_data (VDict record_without_age_sex)
       = Return (false, "Missing required fields: " ++ String.concat ", " names)
       /\ NoDup names
       /\ (forall f, f ∈ names <->
                     f ∈ required_fields /\ record_without_age_sex !! f = None)
       /\ (forall d' : gmap string pyval,
             dom d' = dom record_without_age_sex ->
             validate_input_data (VDict d')
             = validate_input_data (VDict record_without_age_sex)).
Proof.
  assert (exists f, f ∈ required_fields /\ record_without_age_sex !! f = None)
    as Hmiss.
  { exists "Age". split; [apply elem_of_required; by_compute | reflexivity]. }
  split; [exact Hmiss|].
  exact (missing_fields_reported record_without_age_sex Hmiss).
Defined.

Lemma validate_never_raises_witness :
  exists ok msg,
    validate_input_data VNone = Return (ok, msg)
    /\ forall e, validate_body VNone = Raise e ->
         ok = false /\ msg = "Validation error: " ++ exn_msg e.
Proof. exact (validate_never_raises VNone). Defined.

Lemma sex_must_be_M_or_F_witness :
  missing_fields record_lowercase_sex = ∅
  /\ check_ranges record_lowercase_sex get_feature_ranges = None
  /\ record_lowercase_sex !! "Sex" = Some (VStr "m")
  /\ validate_input_data (VDict record_lowercase_sex)
     = Return (false, "Sex must be either 'M' or 'F'").
Proof.
  assert (missing_fields record_lowercase_sex = ∅) as He
    by (vm_compute; reflexivity).
  assert (check_ranges record_lowercase_sex get_feature_ranges = None) as Er
    by (vm_compute; reflexivity).
  assert (record_lowercase_sex !! "Sex" = Some (VStr "m")) as Hs
    by reflexivity.
  split; [exact He|]. split; [exact Er|]. split; [exact Hs|].
  apply (proj1 (sex_must_be_M_or_F record_lowercase_sex (VStr "m") He Er Hs));
    discriminate.
Defined.

Lemma sample_record_valid : valid_fields sample_record.
Proof.
  split; [|split].
  - intros field lo hi Hin. unfold get_feature_ranges in Hin.
    repeat (apply elem_of_cons in Hin as [[= -> -> ->] | Hin];
            [eexists; split; [reflexivity|];
             eexists; split; [reflexivity|]; split; vm_compute; reflexivity |]).
    inversion Hin.
  - left. reflexivity.
  - intros f Hf. unfold boolean_fields in Hf.
    repeat (apply elem_of_cons in Hf as [-> | Hf]; [left; reflexivity|]).
    inversion Hf.
Qed.

Lemma extra_keys_ignored_witness :
  valid_fields sample_record
  /\ dom extra_keys ## required_fields
  /\ validate_input_data (VDict (sample_record ∪ extra_keys))
     = Return (true, "").
Proof.
  assert (dom extra_keys ## required_fields) as Hdisj by by_compute.
  split; [exact sample_record_valid|]. split; [exact Hdisj|].
  exact (extra_keys_ignored sample_record extra_keys sample_record_valid Hdisj).
Defined.

Lemma invalid_input_never_loads_witness :
  validate_input_data (VDict record_lowercase_sex)
  = Return (false, "Sex must be either 'M' or 'F'")
  /\ predict_liver_disease (VDict record_lowercase_sex) stub_world
     = (Raise (Exn ValueError "Sex must be either 'M' or 'F'"), stub_world).
Proof.
  assert (validate_input_data (VDict record_lowercase_sex)
          = Return (false, "Sex must be either 'M' or 'F'")) as Hv
    by (vm_compute; reflexivity).
  split; [exact Hv|].
  exact (proj1 (invalid_input_never_loads (VDict record_lowercase_sex)
                  stub_world) _ Hv).
Defined.

Lemma load_failure_surfaces_witness :
  cache (fresh_process "/app/src" Absent) = None
  /\ load_failure (fresh_process "/app/src" Absent)
     = Some "Model file not found at /app/src/liver_disease_staging_model.pkl"
  /\ exists w',
       load_model (fresh_process "/app/src" Absent) = (None, w')
       /\ st_errors w'
          = ["Error loading model: Model file not found at /app/src/liver_disease_staging_model.pkl"]
       /\ forall patient_data msg,
            validate_input_data patient_data = Return (true, msg) ->
            predict_liver_disease patient_data (fresh_process "/app/src" Absent)
            = (Raise (Exn RuntimeError "Failed to load model"), w')
            /\ exists w'',
                 predict_liver_disease patient_data w'
                 = (Raise (Exn RuntimeError "Failed to load model"), w'')
                 /\ st_errors w''
                    = (st_errors w'
                         ++ ["Error loading model: Model file not found at /app/src/liver_disease_staging_model.pkl"])%list
                 /\ joblib_loads w'' = joblib_loads w'.
Proof.
  split; [reflexivity|]. split; [reflexivity|].
  exact (load_failure_surfaces (fresh_process "/app/src" Absent) _
           eq_refl eq_refl).
Defined.

Lemma prediction_pairs_positionally_witness :
  validate_input_data (VDict sample_record) = Return (true, "")
  /\ load_model stub_world
     = (Some (Handle 0 stub_classifier), (load_model stub_world).2)
  /\ predict_liver_disease (VDict sample_record) stub_world
     = (Return ("Stage2",
                [ ("Stage1", f64_lit 2 1); ("Stage2", f64_lit 3 1);
                  ("Stage3", f64_lit 5 1) ]),
        (load_model stub_world).2).
Proof.
  assert (validate_input_data (VDict sample_record) = Return (true, ""))
    as Hok by (vm_compute; reflexivity).
  assert (load_model stub_world
          = (Some (Handle 0 stub_classifier), (load_model stub_world).2))
    as Hload by reflexivity.
  split; [exact Hok|]. split; [exact Hload|].
  exact (proj1 (prediction_pairs_positionally (VDict sample_record) stub_world
                  _ (Handle 0 stub_classifier) "" "Stage2" []
                  [f64_lit 2 1; f64_lit 3 1; f64_lit 5 1] []
                  Hok Hload eq_refl eq_refl)).
Defined.

Lemma load_model_deserializes_once_witness :
  exists w',
    load_model_times 3 stub_world
    = ([Some (Handle 0 stub_classifier); Some (Handle 0 stub_classifier);
        Some (Handle 0 stub_classifier)], w')
    /\ joblib_loads w' = 1%nat
    /\ (joblib_loads w' <= 1)%nat
    /\ loader_calls w' = 3%nat.
Proof.
  exact (load_model_deserializes_once "/app/src" (Pickled stub_classifier) 3).
Defined.

(** ** Further evaluations *)

Example catalog_fields :
  get_feature_ranges.*1
  = ["Age"; "Albumin"; "Bilirubin"; "ALT"; "AST"; "ALP"; "INR"; "Platelets";
     "Sodium"; "Creatinine"].
Proof. reflexivity. Qed.

Example repr_literals :
  map Repr.repr [f64_lit 3 1; f64_lit 20 1; f64_lit 100 1;
                 f64_add (f64_lit 1 1) (f64_lit 2 1); f64_of_Z (10 ^ 16);
                 f64_lit 1 5]
  = ["0.3"; "2.0"; "10.0"; "0.30000000000000004"; "1e+16"; "1e-05"].
Proof. vm_compute. reflexivity. Qed.

Example bilirubin_above_maximum :
  validate_input_data (VDict (<["Bilirubin" := VFloat (f64_lit 110 1)]> sample_record))
  = Return (false, "Bilirubin must be between 0.3 and 10.0").
Proof. vm_compute. reflexivity. Qed.

Example albumin_not_a_number :
  validate_input_data (VDict (<["Albumin" := VStr "4.0"]> sample_record))
  = Return (false, "Albumin must be a number").
Proof. vm_compute. reflexivity. Qed.

Example nan_passes_range_check :
  validate_input_data (VDict (<["INR" := VFloat S754_nan]> sample_record))
  = Return (true, "").
Proof. vm_compute. reflexivity. Qed.

Example list_instead_of_record :
  validate_input_data (VList [VInt 50; VStr "M"])
  = Return (false, "Validation error: 'list' object has no attribute 'keys'").
Proof. vm_compute. reflexivity. Qed.

Example true_flag_accepted :
  validate_input_data (VDict (<["Edema" := VBool true]> sample_record))
  = Return (true, "").
Proof. vm_compute. reflexivity. Qed.

Example string_flag_rejected :
  validate_input_data (VDict (<["Edema" := VStr "1"]> sample_record))
  = Return (false, "Edema must be 0 or 1").
Proof. vm_compute. reflexivity. Qed.

Example unreadable_model_file :
  (predict_liver_disease (VDict sample_record)
     (fresh_process "/app/src" (Unreadable corrupt_pickle))).1
  = Raise (Exn RuntimeError "Failed to load model")
  /\ st_errors (load_model (fresh_process "/app/src"
                              (Unreadable corrupt_pickle))).2
     = ["Error loading model: invalid load key, 'x'."].
Proof. split; vm_compute; reflexivity. Qed.

Example inference_fault_wrapped :
  (predict_liver_disease (VDict sample_record)
     (fresh_process "/app/src" (Pickled mismatched_classifier))).1
  = Raise (Exn RuntimeError "Prediction error: columns are missing: {'Stage'}").
Proof. vm_compute. reflexivity. Qed.

(** * Further properties of the code *)

(** ** Numbers, once more *)

Lemma num_compare_None (a b : pynum) :
  num_compare a b = None <-> is_nan a = true \/ is_nan b = true.
Proof.
  unfold num_compare, is_nan.
  destruct a as [za|[sa|[]| |sa ma ea]], b as [zb|[sb|[]| |sb mb eb]];
    cbn; intuition discriminate.
Qed.

Lemma is_nan_as_expected (n : pynum) :
  is_nan n = true <-> n = NFloat S754_nan.
Proof.
  unfold is_nan. destruct n as [z|[]]; split; intros Hn;
    try discriminate Hn; reflexivity.
Qed.

Lemma catalog_bounds_ordinary :
  forallb (fun e : string * (pynum * pynum) =>
             negb (is_nan e.2.1) && negb (is_nan e.2.2)
             && num_lt (NFloat (S754_infinity true)) e.2.1
             && num_gt (NFloat (S754_infinity false)) e.2.2)
          get_feature_ranges = true.
Proof. vm_compute. reflexivity. Qed.

Lemma catalog_entry_ordinary field lo hi :
  (field, (lo, hi)) ∈ get_feature_ranges ->
  is_nan lo = false /\ is_nan hi = false
  /\ num_lt (NFloat (S754_infinity true)) lo = true
  /\ num_gt (NFloat (S754_infinity false)) hi = true.
Proof.
  intros Hin.
  pose proof (proj1 (forallb_forall _ _) catalog_bounds_ordinary _
                (proj1 (list_elem_of_In _ _) Hin)) as Hb.
  cbn [fst snd] in Hb.
  apply andb_true_iff in Hb as [Hb Hinf].
  apply andb_true_iff in Hb as [Hb Hninf].
  apply andb_true_iff in Hb as [Hlo Hhi].
  apply negb_true_iff in Hlo, Hhi. auto.
Qed.

(** What the test [value < min_val or value > max_val] lets through. *)
Lemma within_bounds_iff (n lo hi : pynum) :
  is_nan lo = false -> is_nan hi = false ->
  num_lt n lo || num_gt n hi = false
  <-> is_nan n = true \/ (num_le lo n = true /\ num_le n hi = true).
Proof.
  intros Hlo Hhi. rewrite orb_false_iff.
  unfold num_lt, num_gt, num_le. rewrite (num_compare_antisym n lo).
  destruct (num_compare n lo) as [c1|] eqn:E1.
  - destruct (num_compare n hi) as [c2|] eqn:E2.
    + assert (is_nan n = false) as Hn.
      { destruct (is_nan n) eqn:En; [|reflexivity].
        assert (num_compare n lo = None) as Hc
          by (apply num_compare_None; left; exact En).
        congruence. }
      rewrite Hn. destruct c1, c2; cbn; intuition discriminate.
    + apply num_compare_None in E2 as [En | En]; [|congruence].
      assert (num_compare n lo = None) as Hc
        by (apply num_compare_None; left; exact En).
      congruence.
  - apply num_compare_None in E1 as [En | En]; [|congruence].
    assert (num_compare n hi = None) as Hc
      by (apply num_compare_None; left; exact En).
    rewrite Hc, En. cbn. intuition.
Qed.

Lemma in_ints_0_1 (v : pyval) :
  in_ints v [0; 1] = true
  <-> exists n, as_number v = Some n
                /\ (num_eq n (NInt 0) = true \/ num_eq n (NInt 1) = true).
Proof.
  unfold in_ints, eq_int. cbn [existsb]. rewrite orb_false_r, orb_true_iff.
  destruct (as_number v) as [n|].
  - split; [intros Hn; exists n; auto | intros (n' & [= <-] & Hn); exact Hn].
  - split; [intros [|]; discriminate | intros (n & [=] & _)].
Qed.

Lemma append_nonempty (s t : string) : t <> "" -> s ++ t <> "".
Proof. intros Ht. destruct s; cbn; [exact Ht | discriminate]. Qed.

Section ValidatorMore.
Context `{FloatRepr}.

Lemma check_range_None_iff (d : gmap string pyval) field lo hi v :
  (field, (lo, hi)) ∈ get_feature_ranges ->
  d !! field = Some v ->
  check_range d (field, (lo, hi)) = None <-> passes_range v lo hi.
Proof.
  intros Hin Hv. destruct (catalog_entry_ordinary _ _ _ Hin) as (Hlo & Hhi & _).
  cbn [check_range]. rewrite Hv. unfold passes_range.
  destruct (as_number v) as [n|].
  - destruct (num_lt n lo || num_gt n hi) eqn:E.
    + split; [discriminate|]. intros (n' & [= <-] & Hn).
      apply (within_bounds_iff n lo hi Hlo Hhi) in Hn. congruence.
    + split; [|reflexivity]. intros _. exists n. split; [reflexivity|].
      apply (within_bounds_iff n lo hi Hlo Hhi), E.
  - split; [discriminate | intros (n & [=] & _)].
Qed.

Lemma check_booleans_None_iff (d : gmap string pyval) fs :
  check_booleans d fs = Return None
  <-> forall f, f ∈ fs -> exists v, d !! f = Some v /\ in_ints v [0; 1] = true.
Proof.
  induction fs as [|f fs IH]; cbn [check_booleans].
  - split; [intros _ f Hf; inversion Hf | reflexivity].
  - unfold getitem. destruct (d !! f) as [v|] eqn:Ev; cbn [bind].
    + destruct (in_ints v [0; 1]) eqn:Ei; cbn [negb].
      * rewrite IH. split.
        -- intros Hall g Hg. apply elem_of_cons in Hg as [-> | Hg]; eauto.
        -- intros Hall g Hg. apply Hall. right. exact Hg.
      * split; [discriminate|]. intros Hall.
        destruct (Hall f) as (v' & Hv' & Hi); [left|]. congruence.
    + split; [discriminate|]. intros Hall.
      destruct (Hall f) as (v' & Hv' & _); [left|]. congruence.
Qed.

Lemma check_sex_None_iff (d : gmap string pyval) :
  check_sex d = Return None
  <-> d !! "Sex" = Some (VStr "M") \/ d !! "Sex" = Some (VStr "F").
Proof.
  unfold check_sex, getitem. destruct (d !! "Sex") as [v|]; cbn [bind].
  - destruct (in_strs v ["M"; "F"]) eqn:E; cbn [negb].
    + apply in_strs_M_F in E. split; [intros _|reflexivity].
      destruct E as [-> | ->]; auto.
    + split; [discriminate|]. intros Hs.
      assert (v = VStr "M" \/ v = VStr "F") as Hv
        by (destruct Hs as [[= ->] | [= ->]]; auto).
      apply in_strs_M_F in Hv. congruence.
  - split; [discriminate | intros [|]; discriminate].
Qed.

(** Every message of a failed check is non-empty. *)
Lemma check_range_message (d : gmap string pyval) e r :
  check_range d e = Some r -> r.2 <> "".
Proof.
  destruct e as [f [lo hi]]. cbn [check_range].
  destruct (d !! f) as [v|]; [|discriminate].
  destruct (as_number v) as [n|].
  - destruct (num_lt n lo || num_gt n hi); [|discriminate].
    intros [= <-]. cbn. apply append_nonempty. discriminate.
  - intros [= <-]. cbn. apply append_nonempty. discriminate.
Qed.

Lemma check_ranges_message (d : gmap string pyval) rs r :
  check_ranges d rs = Some r -> r.2 <> "".
Proof.
  induction rs as [|e rs IH]; cbn [check_ranges]; [discriminate|].
  destruct (check_range d e) eqn:E; [|exact IH].
  intros [= <-]. exact (check_range_message _ _ _ E).
Qed.

Lemma check_booleans_message (d : gmap string pyval) fs r :
  check_booleans d fs = Return (Some r) -> r.2 <> "".
Proof.
  induction fs as [|f fs IH]; cbn [check_booleans]; [discriminate|].
  unfold getitem. destruct (d !! f) as [v|]; cbn [bind]; [|discriminate].
  destruct (in_ints v [0; 1]); cbn [negb]; [exact IH|].
  intros [= <-]. cbn. apply append_nonempty. discriminate.
Qed.


End ValidatorMore.

(** ** More about the validator *)

Section ValidatorExtras.
Context `{FloatRepr}.

Lemma validate_fields_result (d : gmap string pyval) r :
  validate_fields d = Return r ->
  r = (true, "") \/ (r.1 = false /\ r.2 <> "").
Proof.
  unfold validate_fields.
  destruct (check_ranges d get_feature_ranges) as [r0|] eqn:Er.
  { intros [= <-]. right. split;
      [exact (check_ranges_fails _ _ _ Er) | exact (check_ranges_message _ _ _ Er)]. }
  destruct (check_sex d) as [[r0|]|e] eqn:Es; cbn [bind]; [| |discriminate].
  { intros [= <-]. right. split; [exact (check_sex_fails _ _ Es)|].
    unfold check_sex, getitem in Es.
    destruct (d !! "Sex") as [s|]; cbn [bind] in Es; [|discriminate Es].
    destruct (negb (in_strs s ["M"; "F"])); [|discriminate Es].
    injection Es as <-. discriminate. }
  destruct (check_booleans d boolean_fields) as [[r0|]|e] eqn:Eb;
    cbn [bind]; [| |discriminate].
  - intros [= <-]. right. split;
      [exact (check_booleans_fails _ _ _ Eb) | exact (check_booleans_message _ _ _ Eb)].
  - intros [= <-]. left. reflexivity.
Qed.

(** X1: in a record that is otherwise accepted, a ranged field that holds
    anything but an [int], a [bool] or a [float] is answered with
    "<field> must be a number": the type is tested before the bounds. *)
Theorem non_number_rejected (d : gmap string pyval) field lo hi (v : pyval) :
  (field, (lo, hi)) ∈ get_feature_ranges ->
  validate_input_data (VDict d) = Return (true, "") ->
  as_number v = None ->
  validate_input_data (VDict (<[field := v]> d))
  = Return (false, field ++ " must be a number").
Proof.
  intros Hin Hok Hv. apply (insert_failing_value d field lo hi); [assumption..|].
  cbn [check_range]. rewrite lookup_insert_eq, Hv. reflexivity.
Qed.

(** X2: the range test cannot reject a NaN, so an accepted record stays
    accepted when a ranged field is set to NaN; both infinities are
    rejected with the range message. *)
Theorem nan_passes_infinity_fails (d : gmap string pyval) field lo hi :
  (field, (lo, hi)) ∈ get_feature_ranges ->
  validate_input_data (VDict d) = Return (true, "") ->
  validate_input_data (VDict (<[field := VFloat S754_nan]> d))
  = Return (true, "")
  /\ validate_input_data (VDict (<[field := VFloat (S754_infinity false)]> d))
     = Return (false, field ++ " must be between " ++ num_str lo
                        ++ " and " ++ num_str hi)
  /\ validate_input_data (VDict (<[field := VFloat (S754_infinity true)]> d))
     = Return (false, field ++ " must be between " ++ num_str lo
                        ++ " and " ++ num_str hi).
Proof.
  intros Hin Hok.
  destruct (catalog_entry_ordinary _ _ _ Hin) as (Hlo & Hhi & Hninf & Hinf).
  split; [|split].
  - apply (insert_passing_value d field lo hi); [assumption..|].
    rewrite (check_range_number _ _ _ _ (NFloat S754_nan))
      by apply lookup_insert_eq.
    replace (num_lt (NFloat S754_nan) lo || num_gt (NFloat S754_nan) hi)
      with false; [reflexivity|].
    symmetry. apply (within_bounds_iff _ lo hi Hlo Hhi). left. reflexivity.
  - apply (insert_failing_value d field lo hi); [assumption..|].
    rewrite (check_range_number _ _ _ _ (NFloat (S754_infinity false)))
      by apply lookup_insert_eq.
    rewrite Hinf, orb_true_r. reflexivity.
  - apply (insert_failing_value d field lo hi); [assumption..|].
    rewrite (check_range_number _ _ _ _ (NFloat (S754_infinity true)))
      by apply lookup_insert_eq.
    rewrite Hninf. reflexivity.
Qed.

(** X3: range faults are reported one at a time, in catalog order: when
    the fields before [field] pass and [field] holds a number outside its
    bounds, the answer names [field], whatever the later ranged fields, Sex
    and the boolean fields hold. *)
Theorem first_range_failure_reported
    (d : gmap string pyval) pre field lo hi post (v : pyval) (n : pynum) :
  missing_fields d = ∅ ->
  get_feature_ranges = (pre ++ (field, (lo, hi)) :: post)%list ->
  (forall g l h, (g, (l, h)) ∈ pre ->
     exists u, d !! g = Some u /\ passes_range u l h) ->
  d !! field = Some v ->
  as_number v = Some n ->
  num_lt n lo = true \/ num_gt n hi = true ->
  validate_input_data (VDict d)
  = Return (false, field ++ " must be between " ++ num_str lo
                     ++ " and " ++ num_str hi).
Proof.
  intros He Hsplit Hpre Hv Hn Hout.
  rewrite validate_dict by exact He. unfold validate_fields. rewrite Hsplit.
  erewrite check_ranges_first; [reflexivity| |].
  - apply Forall_forall. intros [g [l h]] Hg.
    destruct (Hpre g l h Hg) as (u & Hu & Hp).
    apply (check_range_None_iff d g l h u); [|exact Hu|exact Hp].
    rewrite Hsplit. apply elem_of_app. left. exact Hg.
  - cbn [check_range]. rewrite Hv, Hn.
    replace (num_lt n lo || num_gt n hi) with true; [reflexivity|].
    symmetry. apply orb_true_iff. exact Hout.
Qed.

(** X4: the validator accepts a record exactly when every ranged field
    holds a number that is a NaN or lies within its bounds, Sex is the
    string "M" or "F", and every boolean field holds a number equal to 0
    or to 1. *)
Theorem accepted_iff_acceptable (d : gmap string pyval) :
  validate_input_data (VDict d) = Return (true, "") <-> acceptable d.
Proof.
  rewrite validate_accepts_iff. unfold acceptable. split.
  - intros (He & Er & Es & Eb).
    pose proof (proj1 (missing_fields_empty d) He) as Hall.
    split; [|split].
    + intros field lo hi Hin.
      destruct (Hall field (range_fields_required _ Hin)) as [v Hv].
      exists v. split; [exact Hv|].
      apply (check_range_None_iff d field lo hi v Hin Hv).
      exact (proj1 (Forall_forall _ _) (proj1 (check_ranges_None _ _) Er) _ Hin).
    + apply check_sex_None_iff, Es.
    + intros f Hf.
      destruct (proj1 (check_booleans_None_iff _ _) Eb f Hf) as (v & Hv & Hi).
      apply in_ints_0_1 in Hi as (n & Hn & H01). eauto.
  - intros (Hr & Hs & Hb). split; [|split; [|split]].
    + apply missing_fields_empty. intros f Hf. apply elem_of_required in Hf.
      destruct (proj1 (Forall_forall _ _) required_by_stage f Hf)
        as [Hc | [-> | Hc]].
      * apply list_elem_of_fmap in Hc as ([g [lo hi]] & -> & Hin).
        destruct (Hr g lo hi Hin) as (v & Hv & _). eauto.
      * destruct Hs as [-> | ->]; eauto.
      * destruct (Hb f Hc) as (v & n & -> & _). eauto.
    + apply check_ranges_None, Forall_forall. intros [f [lo hi]] Hin.
      destruct (Hr f lo hi Hin) as (v & Hv & Hp).
      apply (check_range_None_iff d f lo hi v Hin Hv), Hp.
    + apply check_sex_None_iff, Hs.
    + apply check_booleans_None_iff. intros f Hf.
      destruct (Hb f Hf) as (v & n & Hv & Hn & H01).
      exists v. split; [exact Hv|]. apply in_ints_0_1. eauto.
Qed.

(** X5: the flag and the message agree for every argument, dict or not:
    the message is empty exactly when the flag is [True]. *)
Theorem message_empty_iff_accepted (patient_data : pyval) :
  exists ok msg,
    validate_input_data patient_data = Return (ok, msg)
    /\ (ok = true <-> msg = "").
Proof.
  assert (forall s, "Validation error: " ++ s <> "") as Hgen by discriminate.
  assert (forall (r : bool * string),
            r = (true, "") \/ (r.1 = false /\ r.2 <> "") ->
            r.1 = true <-> r.2 = "") as Hflag.
  { intros [ok msg] [[= -> ->] | [Hf Hm]]; cbn in *; [tauto|].
    subst ok. split; [discriminate | contradiction]. }
  unfold validate_input_data, validate_body.
  destruct patient_data as [| | | | | |d];
    try (eexists _, _; split; [reflexivity|];
         split; [discriminate | intros Hm; destruct (Hgen _ Hm)]).
  destruct (bool_decide (missing_fields d = ∅)) eqn:Em; cbn [negb try_except].
  - destruct (validate_fields d) as [[ok msg]|e] eqn:Ev; cbn [try_except].
    + exists ok, msg. split; [reflexivity|].
      exact (Hflag _ (validate_fields_result d _ Ev)).
    + eexists _, _. split; [reflexivity|].
      split; [discriminate | intros Hm; destruct (Hgen _ Hm)].
  - eexists _, _. split; [reflexivity|]. split; [discriminate|].
    intros Hm. discriminate Hm.
Qed.



End ValidatorExtras.

(** X8: the tables agree: the help texts, the form's assignments and the
    validator's required fields are the same fifteen names; each of them
    is covered by exactly one of the three value checks; and every number
    widget has the bounds of its catalog entry. *)
Theorem field_tables_agree :
  get_feature_descriptions.*1 = required_list
  /\ form_script.*1 = required_list
  /\ (forall f, f ∈ required_fields <-> f ∈ required_list)
  /\ NoDup required_list
  /\ (forall f, f ∈ required_list <->
                f ∈ get_feature_ranges.*1 \/ f = "Sex" \/ f ∈ boolean_fields)
  /\ (forall f, f ∈ get_feature_ranges.*1 -> f <> "Sex" /\ f ∉ boolean_fields)
  /\ ("Sex" ∉ boolean_fields)
  /\ (forall key lo hi value,
        (key, NumberInput lo hi value) ∈ form_script ->
        (key, (lo, hi)) ∈ get_feature_ranges).
Proof.
  split; [reflexivity|]. split; [reflexivity|].
  split; [exact elem_of_required|]. split; [by_compute|].
  split; [|split; [|split]].
  - intros f. split.
    + intros Hf. exact (proj1 (Forall_forall _ _) required_by_stage f Hf).
    + assert (Forall (fun f => f ∈ required_list) (get_feature_ranges.*1))
        as Hr by by_compute.
      assert (Forall (fun f => f ∈ required_list) boolean_fields)
        as Hb by by_compute.
      intros [Hf | [-> | Hf]].
      * exact (proj1 (Forall_forall _ _) Hr f Hf).
      * by_compute.
      * exact (proj1 (Forall_forall _ _) Hb f Hf).
  - assert (Forall (fun f => f <> "Sex" /\ f ∉ boolean_fields)
                   (get_feature_ranges.*1)) as Hr by by_compute.
    intros f Hf. exact (proj1 (Forall_forall _ _) Hr f Hf).
  - by_compute.
  - intros key lo hi value Hin. unfold form_script in Hin.
    repeat (apply elem_of_cons in Hin as [Heq | Hin];
            [first [discriminate Heq
                   | injection Heq as -> -> -> ->;
                     apply list_elem_of_In; cbn; tauto] |]).
    inversion Hin.
Qed.

(** ** More about the loader and the adapter *)

Lemma load_model_effect (w : world) (v : option handle) (w1 : world) :
  load_model w = (v, w1) ->
  cache w1 = Some v
  /\ model_file w1 = model_file w
  /\ module_dir w1 = module_dir w
  /\ loader_calls w1 = S (loader_calls w)
  /\ (joblib_loads w1 <= S (joblib_loads w))%nat
  /\ (forall v0, cache w = Some v0 -> v = v0 /\ joblib_loads w1 = joblib_loads w).
Proof.
  intros Hload. destruct (cache w) as [v0|] eqn:Hc.
  - destruct (load_model_hit_effect w v0 Hc)
      as (w1' & Hload' & Hs & Hj & Hl & Hf & Hd).
    rewrite Hload in Hload'. injection Hload' as -> ->.
    split; [unfold cache in *; rewrite Hs; exact Hc|].
    do 3 (split; [assumption|]). split; [lia|].
    intros v1 [= <-]. split; [reflexivity | exact Hj].
  - apply cache_None in Hc. revert Hload.
    unfold load_model, cache_resource, load_model_fn. cbn. rewrite Hc.
    unfold path_exists, joblib_load. cbn.
    destruct (model_file w) as [|e|m] eqn:Hf; cbn;
      intros Heq; injection Heq as <- <-; cbn;
      do 4 (split; [first [reflexivity | exact Hf]|]);
      (split; [lia|]);
      intros v0 Hv0; discriminate Hv0.
Qed.

(** What a call after the first one does: the cached value again, the
    cached elements drawn again, nothing deserialized. *)
Lemma load_model_again (w : world) (v : option handle) (w1 : world) (f : file) :
  load_model w = (v, w1) ->
  exists again,
    load_model (set_model_file f w1) = (v, again)
    /\ joblib_loads again = joblib_loads w1
    /\ model_file again = f
    /\ (cache w = None ->
        st_errors again
        = (st_errors w1 ++ drop (length (st_errors w)) (st_errors w1))%list).
Proof.
  intros Hload. destruct (cache_slot w) as [[h|drawn]|] eqn:Hc.
  - assert (cache w = Some (Some h)) as Hc' by (apply cache_model; exact Hc).
    rewrite (load_model_hit w h Hc') in Hload. injection Hload as <- <-.
    assert (cache (set_model_file f (count_call w)) = Some (Some h)) as Hc2
      by exact Hc'.
    rewrite (load_model_hit _ h Hc2). eexists.
    repeat split; try reflexivity. intros Hn. congruence.
  - rewrite (load_model_hit_failure w drawn Hc) in Hload.
    injection Hload as <- <-.
    assert (cache_slot (set_model_file f (replay drawn (count_call w)))
            = Some (CachedFailure drawn)) as Hc2 by exact Hc.
    rewrite (load_model_hit_failure _ drawn Hc2). eexists.
    repeat split; try reflexivity.
    intros Hn. apply cache_None in Hn. congruence.
  - revert Hload. unfold load_model at 1.
    unfold cache_resource, load_model_fn. cbn. rewrite Hc.
    unfold path_exists, joblib_load. cbn.
    destruct (model_file w) as [|e|m] eqn:Hf; cbn;
      intros Heq; injection Heq as <- <-.
    + match goal with
      | |- context [load_model ?x] =>
          rewrite (load_model_hit_failure x _ eq_refl)
      end.
      eexists. repeat split; try reflexivity;
        try (intros _; cbn; rewrite drop_app_length; reflexivity).
    + match goal with
      | |- context [load_model ?x] =>
          rewrite (load_model_hit_failure x _ eq_refl)
      end.
      eexists. repeat split; try reflexivity;
        try (intros _; cbn; rewrite drop_app_length; reflexivity).
    + match goal with
      | |- context [load_model ?x] => rewrite (load_model_hit x _ eq_refl)
      end.
      eexists. repeat split; try reflexivity;
        try (intros _; cbn; rewrite drop_all, app_nil_r; reflexivity).
Qed.

(** X9: the first call of [load_model] in a process, by what lies at the
    model path: a good file is deserialized once and gives a handle on its
    classifier without a word on the page; an absent file is never opened;
    an unreadable one is opened once; both failures give [None] and one
    error line.  In every case the outcome is what the cache keeps. *)
Theorem load_model_first_call (w : world) :
  cache w = None ->
  cache (load_model w).2 = Some (load_model w).1
  /\ match model_file w with
     | Pickled m =>
         (load_model w).1 = Some (Handle (joblib_loads w) m)
         /\ joblib_loads (load_model w).2 = S (joblib_loads w)
         /\ st_errors (load_model w).2 = st_errors w
     | Absent =>
         (load_model w).1 = None
         /\ joblib_loads (load_model w).2 = joblib_loads w
         /\ st_errors (load_model w).2
            = (st_errors w
                 ++ [("Error loading model: Model file not found at "
                        ++ model_path w)%string])%list
     | Unreadable e =>
         (load_model w).1 = None
         /\ joblib_loads (load_model w).2 = S (joblib_loads w)
         /\ st_errors (load_model w).2
            = (st_errors w ++ [("Error loading model: " ++ exn_msg e)%string])%list
     end.
Proof.
  intros Hc. apply cache_None in Hc.
  unfold load_model, cache_resource, load_model_fn, cache. cbn.
  rewrite Hc. unfold path_exists, joblib_load. cbn.
  destruct (model_file w) as [|e|m]; cbn; repeat split; reflexivity.
Qed.

(** X10: what [load_model] returned once it returns ever after, whatever
    becomes of the model file in between: nothing is deserialized again,
    so a model loaded once survives the removal of its file, and a failed
    load is not repaired by installing the file.  What the first call
    drew on the page, the error line of a failed load and nothing
    otherwise, is drawn again by the later call. *)
Theorem load_model_ignores_file_changes (w : world) (f : file) :
  let w1 := (load_model w).2 in
  let again := load_model (set_model_file f w1) in
  again.1 = (load_model w).1
  /\ joblib_loads again.2 = joblib_loads w1
  /\ model_file again.2 = f
  /\ (cache w = None ->
      st_errors again.2
      = (st_errors w1 ++ drop (length (st_errors w)) (st_errors w1))%list).
Proof.
  cbn zeta. destruct (load_model w) as [v w1] eqn:Hload. cbn [fst snd].
  destruct (load_model_again w v w1 f Hload) as (again & -> & Hj & Hf & He).
  cbn [fst snd]. auto.
Qed.

Section AdapterExtras.
Context `{FloatRepr}.

Lemma validate_returns (patient_data : pyval) :
  exists ok msg, validate_input_data patient_data = Return (ok, msg).
Proof.
  unfold validate_input_data.
  destruct (validate_body patient_data) as [[ok msg]|e]; cbn [try_except]; eauto.
Qed.

Lemma accepted_true (patient_data : pyval) :
  accepted patient_data = true
  <-> exists msg, validate_input_data patient_data = Return (true, msg).
Proof.
  unfold accepted.
  destruct (validate_input_data patient_data) as [[[|] msg]|e]; split;
    try discriminate; eauto; intros [m [=]].
Qed.

Lemma accepted_false (patient_data : pyval) :
  accepted patient_data = false
  <-> exists msg, validate_input_data patient_data = Return (false, msg).
Proof.
  unfold accepted. destruct (validate_returns patient_data) as (ok & msg & ->).
  destruct ok; split; try discriminate; eauto; intros [m [=]].
Qed.

(** The adapter on an accepted record, by what the loader hands over. *)
Lemma predict_accepted (patient_data : pyval) (w : world) :
  accepted patient_data = true ->
  predict_liver_disease patient_data w
  = (match (load_model w).1 with
     | None => Raise (Exn RuntimeError "Failed to load model")
     | Some h =>
         try_except (run_inference (obj h) patient_data)
           (fun e => Raise (Exn RuntimeError
                              ("Prediction error: " ++ exn_msg e)))
     end, (load_model w).2).
Proof.
  intros Hacc. apply accepted_true in Hacc as [msg Hv].
  unfold predict_liver_disease. rewrite Hv. cbn [negb].
  destruct (load_model w) as [[h|] w1]; reflexivity.
Qed.

Lemma predict_rejected (patient_data : pyval) (w : world) :
  accepted patient_data = false ->
  exists msg,
    validate_input_data patient_data = Return (false, msg)
    /\ predict_liver_disease patient_data w = (Raise (Exn ValueError msg), w).
Proof.
  intros Hacc. apply accepted_false in Hacc as [msg Hv].
  exists msg. split; [exact Hv|].
  unfold predict_liver_disease. rewrite Hv. reflexivity.
Qed.

(** One call of the adapter: the world it leaves behind. *)
Lemma predict_effect (patient_data : pyval) (w : world) :
  let w1 := (predict_liver_disease patient_data w).2 in
  loader_calls w1
  = (loader_calls w + if accepted patient_data then 1 else 0)%nat
  /\ (joblib_loads w1 <= joblib_loads w
                         + match cache w with Some _ => 0 | None => 1 end)%nat
  /\ (forall v, cache w = Some v ->
        cache w1 = Some v /\ joblib_loads w1 = joblib_loads w)
  /\ (accepted patient_data = true -> is_Some (cache w1)).
Proof.
  destruct (accepted patient_data) eqn:Hacc.
  - rewrite (predict_accepted _ w Hacc). cbn [snd].
    destruct (load_model w) as [v w1] eqn:Hload. cbn [snd].
    destruct (load_model_effect w v w1 Hload) as (Hc & _ & _ & Hl & Hj & Hhit).
    split; [rewrite Hl; lia|]. split; [|split].
    + destruct (cache w) as [v0|]; [|lia].
      destruct (Hhit v0 eq_refl) as [_ ->]. lia.
    + intros v0 Hv0. destruct (Hhit v0 Hv0) as [-> ->].
      split; [exact Hc | reflexivity].
    + intros _. rewrite Hc. eauto.
  - destruct (predict_rejected _ w Hacc) as (msg & _ & ->). cbn [snd].
    split; [lia|]. split; [lia|]. split; [intros v0 Hv0; auto|].
    intros Hn. discriminate Hn.
Qed.

Lemma predict_each_effect (records : list pyval) (w : world) :
  let w' := (predict_each records w).2 in
  length (predict_each records w).1 = length records
  /\ loader_calls w'
     = (loader_calls w + length (List.filter accepted records))%nat
  /\ (joblib_loads w' <= joblib_loads w
                         + match cache w with Some _ => 0 | None => 1 end)%nat
  /\ (forall v, cache w = Some v ->
        cache w' = Some v /\ joblib_loads w' = joblib_loads w).
Proof.
  revert w. induction records as [|r rest IH]; intros w; cbn [predict_each].
  - cbn. split; [reflexivity|]. split; [lia|]. split; [lia|].
    intros v Hv. split; [exact Hv | reflexivity].
  - destruct (predict_liver_disease r w) as [o w1] eqn:Hp.
    pose proof (predict_effect r w) as Hone. rewrite Hp in Hone. cbn in Hone.
    destruct Hone as (Hl1 & Hj1 & Hhit1 & Hset1).
    destruct (predict_each rest w1) as [os w2] eqn:Hrest.
    pose proof (IH w1) as Hmany. rewrite Hrest in Hmany. cbn in Hmany.
    destruct Hmany as (Hlen & Hl2 & Hj2 & Hhit2). cbn.
    split; [rewrite Hlen; reflexivity|].
    split; [rewrite Hl2, Hl1; destruct (accepted r); cbn; lia|].
    split.
    + destruct (cache w) as [v|] eqn:Hc.
      * destruct (Hhit1 v eq_refl) as [Hc1 Hj1'].
        destruct (Hhit2 v Hc1) as [_ Hj2']. lia.
      * destruct (cache w1) as [v1|] eqn:Hc1.
        -- destruct (Hhit2 v1 eq_refl) as [_ Hj2']. lia.
        -- destruct (accepted r) eqn:Hacc.
           ++ destruct (Hset1 eq_refl) as [v1 Hv1]. discriminate Hv1.
           ++ destruct (predict_rejected r w Hacc) as (msg & _ & Hpr).
              rewrite Hpr in Hp. injection Hp as _ <-. lia.
    + intros v Hv. destruct (Hhit1 v Hv) as [Hc1 Hj1'].
      destruct (Hhit2 v Hc1) as [Hc2 Hj2']. split; [exact Hc2 | lia].
Qed.

(** X11: every exception of the adapter is a [ValueError] or a
    [RuntimeError], as its docstring says: a [ValueError] carries the
    validator's message and leaves the process untouched; a
    [RuntimeError] is raised only for accepted records and says "Failed to
    load model" or starts with "Prediction error: ". *)
Theorem adapter_raises_only_documented
    (patient_data : pyval) (w w' : world) (e : exn) :
  predict_liver_disease patient_data w = (Raise e, w') ->
  (exn_cls e = ValueError
   /\ validate_input_data patient_data = Return (false, exn_msg e)
   /\ w' = w)
  \/ (exn_cls e = RuntimeError
      /\ accepted patient_data = true
      /\ (exn_msg e = "Failed to load model"
          \/ exists cause, exn_msg e = "Prediction error: " ++ cause)).
Proof.
  intros Hp. destruct (accepted patient_data) eqn:Hacc.
  - right. rewrite (predict_accepted _ w Hacc) in Hp.
    destruct (load_model w).1 as [h|].
    + destruct (run_inference (obj h) patient_data) as [r|e0];
        cbn [try_except] in Hp; [discriminate Hp|].
      injection Hp as <- _. cbn. eauto.
    + injection Hp as <- _. cbn. auto.
  - left. destruct (predict_rejected _ w Hacc) as (msg & Hv & Hpr).
    rewrite Hpr in Hp. injection Hp as <- <-. cbn. auto.
Qed.

(** X12: a fault of the classifier, an exception of [predict] or
    [predict_proba] or an empty answer of either, comes out as
    [RuntimeError("Prediction error: " + str(fault))]; the model stays
    loaded, so the next call meets the same fault without another
    deserialization. *)
Theorem inference_fault_keeps_model
    (patient_data : pyval) (w w1 : world) (h : handle) (fault : exn) :
  accepted patient_data = true ->
  load_model w = (Some h, w1) ->
  (predict (obj h) [patient_data] = Raise fault
   \/ (predict (obj h) [patient_data] = Return []
       /\ fault = Exn IndexError "index 0 is out of bounds for axis 0 with size 0")
   \/ (exists stage stages,
         predict (obj h) [patient_data] = Return (stage :: stages)
         /\ (predict_proba (obj h) [patient_data] = Raise fault
             \/ (predict_proba (obj h) [patient_data] = Return []
                 /\ fault = Exn IndexError
                              "index 0 is out of bounds for axis 0 with size 0")))) ->
  predict_liver_disease patient_data w
  = (Raise (Exn RuntimeError ("Prediction error: " ++ exn_msg fault)), w1)
  /\ predict_liver_disease patient_data w1
     = (Raise (Exn RuntimeError ("Prediction error: " ++ exn_msg fault)),
        count_call w1)
  /\ joblib_loads (count_call w1) = joblib_loads w1.
Proof.
  intros Hacc Hload Hfault.
  assert (run_inference (obj h) patient_data = Raise fault) as Hrun.
  { unfold run_inference.
    destruct Hfault as [Hp | [[Hp ->] | (stage & stages & Hp & [Hq | [Hq ->]])]];
      rewrite Hp; cbn [bind first]; try reflexivity; rewrite Hq; reflexivity. }
  destruct (load_model_effect w _ w1 Hload) as (Hc & _).
  rewrite !predict_accepted by exact Hacc.
  rewrite Hload, (load_model_hit w1 _ Hc). cbn [fst snd].
  rewrite Hrun. repeat split; reflexivity.
Qed.

(** X13: a failed load is remembered: once an accepted record has met a
    missing or unreadable model file, the adapter raises
    [RuntimeError("Failed to load model")] for every accepted record from
    then on, also after a good file has been installed; it never opens
    that file, and each such call draws the error line of the first
    failure on the page again. *)
Theorem failed_load_is_remembered
    (w : world) (reason : string) (first later : pyval) (f : file) :
  cache w = None ->
  load_failure w = Some reason ->
  accepted first = true ->
  accepted later = true ->
  let w1 := (predict_liver_disease first w).2 in
  let retry := predict_liver_disease later (set_model_file f w1) in
  retry.1 = Raise (Exn RuntimeError "Failed to load model")
  /\ joblib_loads retry.2 = joblib_loads w1
  /\ joblib_loads w1 = (joblib_loads w
                         + match model_file w with Absent => 0 | _ => 1 end)%nat
  /\ st_errors w1
     = (st_errors w ++ [("Error loading model: " ++ reason)%string])%list
  /\ st_errors retry.2
     = (st_errors w1 ++ [("Error loading model: " ++ reason)%string])%list.
Proof.
  intros Hc Hfail Hfirst Hlater. cbn zeta.
  rewrite (predict_accepted first w Hfirst). cbn [snd].
  apply cache_None in Hc.
  assert (exists w1, load_model w = (None, w1)
            /\ cache_slot w1
               = Some (CachedFailure
                         [("Error loading model: " ++ reason)%string])
            /\ joblib_loads w1
               = (joblib_loads w
                  + match model_file w with Absent => 0 | _ => 1 end)%nat
            /\ st_errors w1
               = (st_errors w ++ [("Error loading model: " ++ reason)%string])%list)
    as (w1 & Hload & Hc1 & Hj1 & He1).
  { unfold load_model, cache_resource, load_model_fn, load_failure in *.
    cbn. rewrite Hc. unfold path_exists, joblib_load. cbn.
    destruct (model_file w) as [|e|m]; cbn; [| |discriminate Hfail];
      injection Hfail as <-; eexists;
      (split; [reflexivity|]); cbn; rewrite drop_app_length;
      repeat split; try reflexivity; lia. }
  rewrite Hload. cbn [snd].
  rewrite (predict_accepted later _ Hlater).
  assert (cache_slot (set_model_file f w1)
          = Some (CachedFailure [("Error loading model: " ++ reason)%string]))
    as Hc2 by exact Hc1.
  rewrite (load_model_hit_failure _ _ Hc2). cbn [fst snd].
  split; [reflexivity|]. split; [reflexivity|]. split; [exact Hj1|].
  split; [exact He1|]. cbn. reflexivity.
Qed.

(** X14: however many records are sent through the adapter in a process,
    [joblib.load] runs at most once; [load_model] is called once per
    accepted record and never for a rejected one; every record gets an
    answer. *)
Theorem predict_each_loads_once (records : list pyval) (dir : string) (f : file) :
  let run := predict_each records (fresh_process dir f) in
  length run.1 = length records
  /\ (joblib_loads run.2 <= 1)%nat
  /\ loader_calls run.2 = length (List.filter accepted records).
Proof.
  destruct (predict_each_effect records (fresh_process dir f))
    as (Hlen & Hl & Hj & _).
  cbn zeta. split; [exact Hlen|]. split; [exact Hj | exact Hl].
Qed.

(** X15: the answer for a record does not depend on what the process has
    predicted before: after a first call, and any calls for other records
    since, the same record gets the same answer. *)
Theorem predict_repeatable
    (patient_data : pyval) (others : list pyval) (w : world) :
  let w1 := (predict_liver_disease patient_data w).2 in
  let w2 := (predict_each others w1).2 in
  (predict_liver_disease patient_data w2).1
  = (predict_liver_disease patient_data w).1.
Proof.
  cbn zeta. destruct (accepted patient_data) eqn:Hacc.
  - rewrite (predict_accepted _ w Hacc). cbn [fst snd].
    destruct (load_model w) as [v w1] eqn:Hload. cbn [fst snd].
    destruct (load_model_effect w v w1 Hload) as (Hc & _).
    destruct (predict_each_effect others w1) as (_ & _ & _ & Hkeep).
    destruct (Hkeep v Hc) as [Hc2 _].
    rewrite (predict_accepted _ _ Hacc).
    destruct (load_model_hit_effect _ v Hc2) as (w3 & -> & _).
    reflexivity.
  - destruct (predict_rejected _ w Hacc) as (msg & Hv & ->). cbn [fst snd].
    destruct (predict_rejected _ (predict_each others w).2 Hacc)
      as (msg' & Hv' & ->).
    cbn. congruence.
Qed.

End AdapterExtras.

(** ** The probability mapping as a dict *)

Lemma dict_get_set {V} (d : list (string * V)) k v k' :
  dict_get (dict_set d k v) k'
  = if bool_decide (k = k') then Some v else dict_get d k'.
Proof.
  induction d as [|[k0 v0] d IH]; cbn [dict_set dict_get].
  - destruct (bool_decide (k = k')); reflexivity.
  - destruct (bool_decide (k0 = k)) eqn:E0; cbn [dict_get].
    + apply bool_decide_eq_true in E0 as ->.
      destruct (bool_decide (k = k')); reflexivity.
    + apply bool_decide_eq_false in E0.
      destruct (bool_decide (k0 = k')) eqn:E1.
      * apply bool_decide_eq_true in E1 as ->.
        rewrite bool_decide_eq_false_2 by congruence. reflexivity.
      * exact IH.
Qed.

Lemma dict_set_keys {V} (d : list (string * V)) k v :
  (dict_set d k v).*1 = if bool_decide (k ∈ d.*1) then d.*1 else (d.*1 ++ [k])%list.
Proof.
  induction d as [|[k0 v0] d IH]; cbn [dict_set]; [reflexivity|].
  destruct (bool_decide (k0 = k)) eqn:E0.
  - apply bool_decide_eq_true in E0 as ->. cbn.
    rewrite bool_decide_eq_true_2 by left. reflexivity.
  - apply bool_decide_eq_false in E0. cbn. rewrite IH.
    destruct (bool_decide (k ∈ d.*1)) eqn:E1.
    + apply bool_decide_eq_true in E1.
      rewrite bool_decide_eq_true_2 by (right; exact E1). reflexivity.
    + apply bool_decide_eq_false in E1.
      rewrite bool_decide_eq_false_2; [reflexivity|].
      intros Hin. apply elem_of_cons in Hin as [-> | Hin]; contradiction.
Qed.

Lemma dict_set_NoDup {V} (d : list (string * V)) k v :
  NoDup (d.*1) -> NoDup ((dict_set d k v).*1).
Proof.
  intros Hnd. rewrite dict_set_keys.
  destruct (bool_decide (k ∈ d.*1)) eqn:E; [exact Hnd|].
  apply bool_decide_eq_false in E. apply NoDup_app.
  split; [exact Hnd|]. split; [|apply NoDup_singleton].
  intros x Hx Hx'. apply list_elem_of_singleton in Hx'. subst x. contradiction.
Qed.

Lemma dict_set_length {V} (d : list (string * V)) k v :
  (length (dict_set d k v) <= S (length d))%nat.
Proof.
  induction d as [|[k0 v0] d IH]; cbn [dict_set]; [cbn; lia|].
  destruct (bool_decide (k0 = k)); cbn; lia.
Qed.

Lemma last_with_key_cons {V} (k k0 : string) (v0 : V) pairs :
  last_with_key k ((k0, v0) :: pairs)
  = match last_with_key k pairs with
    | Some v => Some v
    | None => if bool_decide (k0 = k) then Some v0 else None
    end.
Proof.
  unfold last_with_key. rewrite filter_cons. cbn [fst].
  destruct (decide (k0 = k)) as [-> | Hne].
  - rewrite bool_decide_eq_true_2 by reflexivity. rewrite last_cons.
    destruct (last (filter _ pairs)); reflexivity.
  - rewrite bool_decide_eq_false_2 by exact Hne.
    destruct (last (filter _ pairs)); reflexivity.
Qed.

Lemma dict_comprehension_spec {V W} (f : V -> W) (pairs : list (string * V)) :
  NoDup ((dict_comprehension f pairs).*1)
  /\ (length (dict_comprehension f pairs) <= length pairs)%nat
  /\ forall k, dict_get (dict_comprehension f pairs) k
               = f <$> last_with_key k pairs.
Proof.
  unfold dict_comprehension.
  assert (forall acc : list (string * W),
            NoDup (acc.*1) ->
            let d := fold_left (fun d kv => dict_set d kv.1 (f kv.2)) pairs acc in
            NoDup (d.*1)
            /\ (length d <= length acc + length pairs)%nat
            /\ forall k, dict_get d k
                         = match last_with_key k pairs with
                           | Some v => Some (f v)
                           | None => dict_get acc k
                           end) as Hgen.
  { induction pairs as [|[k0 v0] pairs IH]; intros acc Hnd; cbn [fold_left].
    - cbn. split; [exact Hnd|]. split; [lia|]. reflexivity.
    - destruct (IH (dict_set acc k0 (f v0)) (dict_set_NoDup _ _ _ Hnd))
        as (Hnd' & Hlen & Hget). cbn [fst snd] in *.
      split; [exact Hnd'|]. split.
      + pose proof (dict_set_length acc k0 (f v0)). cbn [length]. lia.
      + intros k. rewrite Hget, last_with_key_cons.
        destruct (last_with_key k pairs); [reflexivity|].
        rewrite dict_get_set. destruct (bool_decide (k0 = k)); reflexivity. }
  destruct (Hgen [] (NoDup_nil_2)) as (Hnd & Hlen & Hget).
  split; [exact Hnd|]. split; [cbn in Hlen; lia|].
  intros k. rewrite Hget. destruct (last_with_key k pairs); reflexivity.
Qed.

Lemma last_with_key_zip {V} (k : string) (ks : list string) (vs : list V) v :
  last_with_key k (zip ks vs) = Some v ->
  exists i, ks !! i = Some k /\ vs !! i = Some v.
Proof.
  unfold last_with_key. intros Hl.
  destruct (last (filter _ (zip ks vs))) as [[k' v']|] eqn:El; [|discriminate Hl].
  injection Hl as ->. apply last_Some_elem_of in El.
  apply list_elem_of_filter in El as [Hk Hin]. cbn in Hk. subst k'.
  apply list_elem_of_lookup in Hin as [i Hi].
  apply lookup_zip_with_Some in Hi as (x & y & [= <- <-] & Hx & Hy).
  eauto.
Qed.

Section MappingExtras.
Context `{FloatRepr}.

(** X16: whatever the adapter returns comes from the classifier: the stage
    is the first prediction, and the mapping is a proper dict over
    [zip(classes_, probabilities)]: no label twice, a repeated label with
    the probability of its last position, labels beyond the shorter of
    the two lists dropped, and every entry a pair of one position. *)
Theorem adapter_answer_comes_from_classifier
    (patient_data : pyval) (w w' : world)
    (stage : string) (probs : list (string * spec_float)) :
  predict_liver_disease patient_data w = (Return (stage, probs), w') ->
  accepted patient_data = true
  /\ exists h stages row rows,
       load_model w = (Some h, w')
       /\ predict (obj h) [patient_data] = Return (stage :: stages)
       /\ predict_proba (obj h) [patient_data] = Return (row :: rows)
       /\ NoDup (probs.*1)
       /\ (length probs <= Nat.min (length (classes_ (obj h))) (length row))%nat
       /\ (forall label,
             dict_get probs label
             = last_with_key label (zip (classes_ (obj h)) row))
       /\ (forall label p,
             dict_get probs label = Some p ->
             exists i, classes_ (obj h) !! i = Some label /\ row !! i = Some p).
Proof.
  intros Hp. destruct (accepted patient_data) eqn:Hacc.
  2:{ destruct (predict_rejected _ w Hacc) as (msg & _ & Hpr).
      rewrite Hpr in Hp. discriminate Hp. }
  split; [reflexivity|]. rewrite (predict_accepted _ w Hacc) in Hp.
  destruct (load_model w) as [[h|] w1] eqn:Hload; cbn [fst snd] in Hp;
    [|discriminate Hp].
  unfold run_inference in Hp.
  destruct (predict (obj h) [patient_data]) as [[|s stages]|e] eqn:Hpred;
    cbn [bind first try_except] in Hp; try discriminate Hp.
  destruct (predict_proba (obj h) [patient_data]) as [[|row rows]|e] eqn:Hprob;
    cbn [bind first try_except] in Hp; try discriminate Hp.
  injection Hp as -> <- <-.
  destruct (dict_comprehension_spec (@id spec_float)
              (zip (classes_ (obj h)) row)) as (Hnd & Hlen & Hget).
  exists h, stages, row, rows.
  split; [first [reflexivity | exact Hload]|].
  split; [first [reflexivity | exact Hpred]|].
  split; [first [reflexivity | exact Hprob]|].
  split; [exact Hnd|]. split; [|split].
  - rewrite length_zip_with in Hlen. exact Hlen.
  - intros label. rewrite Hget. destruct (last_with_key _ _); reflexivity.
  - intros label p Hl. rewrite Hget in Hl.
    destruct (last_with_key label (zip (classes_ (obj h)) row)) as [q|] eqn:El;
      [|discriminate Hl].
    injection Hl as <-. exact (last_with_key_zip _ _ _ _ El).
Qed.

End MappingExtras.

(** ** The form *)

Lemma fold_insert_other (l : list (string * widget * pyval))
    (d : gmap string pyval) (key : string) :
  key ∉ l.*1.*1 ->
  fold_left (fun d kwa => <[kwa.1.1 := stored_value kwa.1.2 kwa.2]> d) l d !! key
  = d !! key.
Proof.
  revert d. induction l as [|[[k w] raw] l IH]; intros d Hk; [reflexivity|].
  cbn in Hk. apply not_elem_of_cons in Hk as [Hne Hk]. cbn [fold_left].
  rewrite IH by exact Hk. cbn. apply lookup_insert_ne. congruence.
Qed.

Lemma fold_insert_lookup (l : list (string * widget * pyval))
    (d : gmap string pyval) key w raw :
  NoDup (l.*1.*1) ->
  (key, w, raw) ∈ l ->
  fold_left (fun d kwa => <[kwa.1.1 := stored_value kwa.1.2 kwa.2]> d) l d !! key
  = Some (stored_value w raw).
Proof.
  revert d. induction l as [|[[k0 w0] raw0] l IH]; intros d Hnd Hin;
    [inversion Hin|].
  cbn in Hnd. apply NoDup_cons in Hnd as [Hk0 Hnd]. cbn [fold_left].
  apply elem_of_cons in Hin as [[= -> -> ->] | Hin].
  - rewrite fold_insert_other by exact Hk0. cbn. apply lookup_insert_eq.
  - apply IH; assumption.
Qed.

Lemma form_script_keys_NoDup : NoDup (form_script.*1).
Proof. by_compute. Qed.

(** The value the script stores under [key], given what its widget
    returned. *)
Lemma fill_lookup (answers : list pyval) (session : gmap string pyval) key w :
  Forall2 (fun kw raw => widget_returns kw.2 raw = true) form_script answers ->
  (key, w) ∈ form_script ->
  exists raw,
    widget_returns w raw = true
    /\ fill_patient_data answers session !! key = Some (stored_value w raw).
Proof.
  intros Hall Hin. apply list_elem_of_lookup in Hin as [i Hi].
  destruct (Forall2_lookup_l _ _ _ _ _ Hall Hi) as (raw & Hraw & Hret).
  exists raw. split; [exact Hret|]. unfold fill_patient_data.
  apply fold_insert_lookup.
  - assert ((zip form_script answers).*1 = form_script) as ->.
    { apply fst_zip. rewrite (Forall2_length _ _ _ Hall). reflexivity. }
    exact form_script_keys_NoDup.
  - apply list_elem_of_lookup. exists i.
    apply lookup_zip_with_Some. eauto.
Qed.

Lemma form_covers_catalog :
  Forall (fun e : string * (pynum * pynum) =>
            exists value, (e.1, NumberInput e.2.1 e.2.2 value) ∈ form_script)
         get_feature_ranges.
Proof.
  unfold get_feature_ranges.
  repeat (apply Forall_cons; split;
          [eexists; apply list_elem_of_In; cbn; tauto |]).
  apply Forall_nil_2.
Qed.

Lemma form_covers_booleans :
  Forall (fun f => (f, Checkbox) ∈ form_script) boolean_fields.
Proof.
  unfold boolean_fields.
  repeat (apply Forall_cons; split; [apply list_elem_of_In; cbn; tauto |]).
  apply Forall_nil_2.
Qed.

(** A record read from the widgets has valid values in all fifteen
    fields, whatever the session dict held before. *)
Lemma form_record_valid (answers : list pyval) (session : gmap string pyval) :
  Forall2 (fun kw raw => widget_returns kw.2 raw = true) form_script answers ->
  valid_fields (fill_patient_data answers session).
Proof.
  intros Hall. split; [|split].
  - intros field lo hi Hin.
    destruct (proj1 (Forall_forall _ _) form_covers_catalog _ Hin)
      as [value Hw]. cbn [fst snd] in Hw.
    destruct (fill_lookup answers session _ _ Hall Hw) as (raw & Hret & Hlook).
    exists raw. split.
    + rewrite Hlook. destruct raw; reflexivity.
    + cbn [widget_returns] in Hret. unfold in_range.
      destruct raw; try discriminate Hret;
        apply andb_true_iff in Hret as [Hlo Hhi]; eexists; eauto.
  - assert (("Sex", Radio ["M"; "F"]) ∈ form_script) as Hw
      by (apply list_elem_of_In; cbn; tauto).
    destruct (fill_lookup answers session _ _ Hall Hw) as (raw & Hret & Hlook).
    rewrite Hlook. cbn [widget_returns] in Hret.
    destruct raw; try discriminate Hret. apply bool_decide_eq_true in Hret.
    cbn [stored_value].
    apply elem_of_cons in Hret as [-> | Hret]; [left; reflexivity|].
    apply elem_of_cons in Hret as [-> | Hret]; [right; reflexivity|].
    inversion Hret.
  - intros f Hf.
    pose proof (proj1 (Forall_forall _ _) form_covers_booleans f Hf) as Hw.
    destruct (fill_lookup answers session _ _ Hall Hw) as (raw & Hret & Hlook).
    rewrite Hlook. cbn [widget_returns] in Hret.
    destruct raw as [|[|]| | | | |]; try discriminate Hret; cbn; auto.
Qed.

Section FormExtras.
Context `{FloatRepr} `{PercentFormat}.

(** X17: whatever the user enters, the record the script builds from the
    widgets is accepted by the validator, and no value left in the session
    dict by an earlier run or by other code changes that; the form's
    bounds and options are those of the validator. *)
Theorem form_record_accepted (answers : list pyval)
    (session : gmap string pyval) :
  Forall2 (fun kw raw => widget_returns kw.2 raw = true) form_script answers ->
  validate_input_data (VDict (fill_patient_data answers session))
  = Return (true, "")
  /\ forall key, key ∉ required_fields ->
       fill_patient_data answers session !! key = session !! key.
Proof.
  intros Hall. split.
  - apply valid_fields_accepted, form_record_valid, Hall.
  - intros key Hkey. unfold fill_patient_data. apply fold_insert_other.
    assert ((zip form_script answers).*1 = form_script) as ->.
    { apply fst_zip. rewrite (Forall2_length _ _ _ Hall). reflexivity. }
    intros Hin. apply Hkey, elem_of_required. exact Hin.
Qed.

(** The page after a click on an accepted record. *)
Lemma click_on_accepted (patient_data : pyval) (w : world) :
  accepted patient_data = true ->
  (on_predict_click patient_data w).2 = (load_model w).2
  /\ match (on_predict_click patient_data w).1 with
     | Results stage chart_x chart_y table =>
         is_Some (load_model w).1
         /\ length chart_y = length chart_x
         /\ table.*1 = chart_x
         /\ table.*2 = format_percent <$> chart_y
     | ErrorBox message =>
         message = "⚠️ An error occurred: Failed to load model"
         \/ exists cause,
              message = "⚠️ An error occurred: Prediction error: " ++ cause
     end.
Proof.
  intros Hacc. unfold on_predict_click. rewrite (predict_accepted _ w Hacc).
  destruct (load_model w) as [[h|] w1]; cbn [fst snd]; [|split; auto].
  destruct (run_inference (obj h) _) as [[stage probs]|e]; cbn [try_except fst snd].
  - split; [reflexivity|]. split; [eauto|].
    split; [rewrite !length_fmap; reflexivity|]. split.
    + apply fst_zip. rewrite !length_fmap. reflexivity.
    + apply snd_zip. rewrite !length_fmap. reflexivity.
  - split; [reflexivity|]. right. eexists. reflexivity.
Qed.

(** X18: a run of the script with the button pressed, on whatever the user
    entered and whatever session it started from, never shows a
    validation message: the page shows the results, chart and table
    listing the same labels in the same order, or it shows "Failed to
    load model" or a "Prediction error: ..." line; the record is kept in
    the session. *)
Theorem click_on_form_record (answers : list pyval)
    (session : option (gmap string pyval)) (w : world) :
  Forall2 (fun kw raw => widget_returns kw.2 raw = true) form_script answers ->
  exists shown,
    script_run session answers true w
    = (Some shown, fill_patient_data answers (default ∅ session),
       (load_model w).2)
    /\ match shown with
       | Results stage chart_x chart_y table =>
           is_Some (load_model w).1
           /\ length chart_y = length chart_x
           /\ table.*1 = chart_x
           /\ table.*2 = format_percent <$> chart_y
       | ErrorBox message =>
           message = "⚠️ An error occurred: Failed to load model"
           \/ exists cause,
                message = "⚠️ An error occurred: Prediction error: " ++ cause
       end.
Proof.
  intros Hall. set (d := fill_patient_data answers (default ∅ session)).
  assert (accepted (VDict d) = true) as Hacc.
  { apply accepted_true. eexists.
    apply valid_fields_accepted, form_record_valid, Hall. }
  destruct (click_on_accepted (VDict d) w Hacc) as [Hw Hshown].
  exists (on_predict_click (VDict d) w).1. split; [|exact Hshown].
  unfold script_run. fold d.
  destruct (on_predict_click (VDict d) w) as [p w1]. cbn [fst snd] in *.
  rewrite Hw. reflexivity.
Qed.

End FormExtras.

(** ** The further properties at sample inputs *)

Lemma non_number_rejected_witness :
  ("Albumin", (NFloat (f64_lit 20 1), NFloat (f64_lit 60 1))) ∈ get_feature_ranges
  /\ validate_input_data (VDict sample_record) = Return (true, "")
  /\ as_number (VStr "4.0") = None
  /\ validate_input_data (VDict (<["Albumin" := VStr "4.0"]> sample_record))
     = Return (false, "Albumin must be a number").
Proof.
  assert (("Albumin", (NFloat (f64_lit 20 1), NFloat (f64_lit 60 1)))
            ∈ get_feature_ranges) as Hin by (right; left).
  assert (validate_input_data (VDict sample_record) = Return (true, ""))
    as Hok by (vm_compute; reflexivity).
  split; [exact Hin|]. split; [exact Hok|]. split; [reflexivity|].
  exact (non_number_rejected sample_record "Albumin" _ _ (VStr "4.0")
           Hin Hok eq_refl).
Defined.

Lemma nan_passes_infinity_fails_witness :
  ("INR", (NFloat (f64_lit 5 1), NFloat (f64_lit 50 1))) ∈ get_feature_ranges
  /\ validate_input_data (VDict sample_record) = Return (true, "")
  /\ validate_input_data (VDict (<["INR" := VFloat S754_nan]> sample_record))
     = Return (true, "")
  /\ validate_input_data
       (VDict (<["INR" := VFloat (S754_infinity false)]> sample_record))
     = Return (false, "INR must be between 0.5 and 5.0")
  /\ validate_input_data
       (VDict (<["INR" := VFloat (S754_infinity true)]> sample_record))
     = Return (false, "INR must be between 0.5 and 5.0").
Proof.
  assert (("INR", (NFloat (f64_lit 5 1), NFloat (f64_lit 50 1)))
            ∈ get_feature_ranges) as Hin
    by (apply list_elem_of_In; cbn; tauto).
  assert (validate_input_data (VDict sample_record) = Return (true, ""))
    as Hok by (vm_compute; reflexivity).
  split; [exact Hin|]. split; [exact Hok|].
  exact (nan_passes_infinity_fails sample_record "INR" _ _ Hin Hok).
Defined.

Lemma first_range_failure_reported_witness :
  missing_fields record_many_faults = ∅
  /\ record_many_faults !! "Bilirubin" = Some (VFloat (f64_lit 110 1))
  /\ record_many_faults !! "ALT" = Some (VInt 1)
  /\ record_many_faults !! "Sex" = Some (VStr "x")
  /\ record_many_faults !! "Edema" = Some (VInt 5)
  /\ validate_input_data (VDict record_many_faults)
     = Return (false, "Bilirubin must be between 0.3 and 10.0").
Proof.
  assert (missing_fields record_many_faults = ∅) as He
    by (vm_compute; reflexivity).
  split; [exact He|]. do 4 (split; [reflexivity|]).
  etransitivity.
  { apply (first_range_failure_reported record_many_faults
             [ ("Age", (NInt 18, NInt 90));
               ("Albumin", (NFloat (f64_lit 20 1), NFloat (f64_lit 60 1))) ]
             "Bilirubin" (NFloat (f64_lit 3 1)) (NFloat (f64_lit 100 1))
             (List.tl (List.tl (List.tl get_feature_ranges)))
             (VFloat (f64_lit 110 1)) (NFloat (f64_lit 110 1)) He).
    - reflexivity.
    - intros g l h Hg.
      apply elem_of_cons in Hg as [[= -> -> ->] | Hg];
        [eexists; split; [reflexivity|]; eexists; split; [reflexivity|];
         right; split; vm_compute; reflexivity |].
      apply elem_of_cons in Hg as [[= -> -> ->] | Hg];
        [eexists; split; [reflexivity|]; eexists; split; [reflexivity|];
         right; split; vm_compute; reflexivity |].
      inversion Hg.
    - reflexivity.
    - reflexivity.
    - right. vm_compute. reflexivity. }
  vm_compute. reflexivity.
Defined.

Lemma load_model_first_call_witness :
  cache stub_world = None
  /\ cache (load_model stub_world).2 = Some (load_model stub_world).1
  /\ (load_model stub_world).1 = Some (Handle 0 stub_classifier)
  /\ joblib_loads (load_model stub_world).2 = 1%nat
  /\ st_errors (load_model stub_world).2 = [].
Proof.
  split; [reflexivity|]. exact (load_model_first_call stub_world eq_refl).
Defined.

Lemma adapter_raises_only_documented_witness :
  predict_liver_disease (VDict record_lowercase_sex) stub_world
  = (Raise (Exn ValueError "Sex must be either 'M' or 'F'"), stub_world)
  /\ ((exn_cls (Exn ValueError "Sex must be either 'M' or 'F'") = ValueError
       /\ validate_input_data (VDict record_lowercase_sex)
          = Return (false, "Sex must be either 'M' or 'F'")
       /\ stub_world = stub_world)
      \/ (exn_cls (Exn ValueError "Sex must be either 'M' or 'F'") = RuntimeError
          /\ accepted (VDict record_lowercase_sex) = true
          /\ ("Sex must be either 'M' or 'F'" = "Failed to load model"
              \/ exists cause,
                   "Sex must be either 'M' or 'F'"
                   = "Prediction error: " ++ cause))).
Proof.
  assert (predict_liver_disease (VDict record_lowercase_sex) stub_world
          = (Raise (Exn ValueError "Sex must be either 'M' or 'F'"), stub_world))
    as Hp by (vm_compute; reflexivity).
  split; [exact Hp|].
  exact (adapter_raises_only_documented (VDict record_lowercase_sex)
           stub_world stub_world _ Hp).
Defined.

Lemma inference_fault_keeps_model_witness :
  accepted (VDict sample_record) = true
  /\ load_model (fresh_process "/app/src" (Pickled mismatched_classifier))
     = (Some (Handle 0 mismatched_classifier),
        (load_model (fresh_process "/app/src" (Pickled mismatched_classifier))).2)
  /\ predict mismatched_classifier [VDict sample_record]
     = Raise (Exn ValueError "columns are missing: {'Stage'}")
  /\ predict_liver_disease (VDict sample_record)
       (fresh_process "/app/src" (Pickled mismatched_classifier))
     = (Raise (Exn RuntimeError
                 "Prediction error: columns are missing: {'Stage'}"),
        (load_model (fresh_process "/app/src" (Pickled mismatched_classifier))).2).
Proof.
  assert (accepted (VDict sample_record) = true) as Hacc
    by (vm_compute; reflexivity).
  split; [exact Hacc|]. split; [reflexivity|]. split; [reflexivity|].
  exact (proj1 (inference_fault_keeps_model (VDict sample_record)
                  (fresh_process "/app/src" (Pickled mismatched_classifier))
                  _ (Handle 0 mismatched_classifier)
                  (Exn ValueError "columns are missing: {'Stage'}")
                  Hacc eq_refl (or_introl eq_refl))).
Defined.

Lemma failed_load_is_remembered_witness :
  cache (fresh_process "/app/src" Absent) = None
  /\ load_failure (fresh_process "/app/src" Absent)
     = Some "Model file not found at /app/src/liver_disease_staging_model.pkl"
  /\ accepted (VDict sample_record) = true
  /\ (predict_liver_disease (VDict sample_record)
        (set_model_file (Pickled stub_classifier)
           (predict_liver_disease (VDict sample_record)
              (fresh_process "/app/src" Absent)).2)).1
     = Raise (Exn RuntimeError "Failed to load model")
  /\ joblib_loads
       (predict_liver_disease (VDict sample_record)
          (set_model_file (Pickled stub_classifier)
             (predict_liver_disease (VDict sample_record)
                (fresh_process "/app/src" Absent)).2)).2 = 0%nat
  /\ st_errors
       (predict_liver_disease (VDict sample_record)
          (set_model_file (Pickled stub_classifier)
             (predict_liver_disease (VDict sample_record)
                (fresh_process "/app/src" Absent)).2)).2
     = ["Error loading model: Model file not found at /app/src/liver_disease_staging_model.pkl";
        "Error loading model: Model file not found at /app/src/liver_disease_staging_model.pkl"].
Proof.
  assert (accepted (VDict sample_record) = true) as Hacc
    by (vm_compute; reflexivity).
  split; [reflexivity|]. split; [reflexivity|]. split; [exact Hacc|].
  destruct (failed_load_is_remembered (fresh_process "/app/src" Absent) _
              (VDict sample_record) (VDict sample_record)
              (Pickled stub_classifier) eq_refl eq_refl Hacc Hacc)
    as (Hr & Hj & Hj1 & He1 & He).
  split; [exact Hr|]. split; [rewrite Hj, Hj1; reflexivity|].
  rewrite He, He1. reflexivity.
Defined.

Lemma adapter_answer_comes_from_classifier_witness :
  predict_liver_disease (VDict sample_record)
    (fresh_process "/app/src" (Pickled odd_classifier))
  = (Return ("Stage1", [("Stage1", f64_lit 5 1); ("Stage2", f64_lit 3 1)]),
     (load_model (fresh_process "/app/src" (Pickled odd_classifier))).2)
  /\ accepted (VDict sample_record) = true
  /\ NoDup ([("Stage1", f64_lit 5 1); ("Stage2", f64_lit 3 1)].*1).
Proof.
  assert (predict_liver_disease (VDict sample_record)
            (fresh_process "/app/src" (Pickled odd_classifier))
          = (Return ("Stage1", [("Stage1", f64_lit 5 1); ("Stage2", f64_lit 3 1)]),
             (load_model (fresh_process "/app/src" (Pickled odd_classifier))).2))
    as Hp by (vm_compute; reflexivity).
  split; [exact Hp|].
  destruct (adapter_answer_comes_from_classifier _ _ _ _ _ Hp)
    as (Hacc & h & stages & row & rows & _ & _ & _ & Hnd & _).
  split; [exact Hacc | exact Hnd].
Defined.

Lemma default_answers_allowed :
  Forall2 (fun kw raw => widget_returns kw.2 raw = true)
          form_script default_answers.
Proof.
  unfold default_answers, form_script. cbn [fmap list_fmap].
  repeat (constructor; [vm_compute; reflexivity|]). constructor.
Qed.

Lemma form_record_accepted_witness :
  Forall2 (fun kw raw => widget_returns kw.2 raw = true)
          form_script default_answers
  /\ validate_input_data (VDict (fill_patient_data default_answers stale_session))
     = Return (true, "")
  /\ forall key, key ∉ required_fields ->
       fill_patient_data default_answers stale_session !! key
       = stale_session !! key.
Proof.
  split; [exact default_answers_allowed|].
  exact (form_record_accepted default_answers stale_session
           default_answers_allowed).
Defined.

Lemma click_on_form_record_witness :
  Forall2 (fun kw raw => widget_returns kw.2 raw = true)
          form_script default_answers
  /\ exists shown,
       script_run (Some stale_session) default_answers true stub_world
       = (Some shown, fill_patient_data default_answers stale_session,
          (load_model stub_world).2)
       /\ match shown with
          | Results stage chart_x chart_y table =>
              is_Some (load_model stub_world).1
              /\ length chart_y = length chart_x
              /\ table.*1 = chart_x
              /\ table.*2 = format_percent <$> chart_y
          | ErrorBox message =>
              message = "⚠️ An error occurred: Failed to load model"
              \/ exists cause,
                   message
                   = "⚠️ An error occurred: Prediction error: " ++ cause
          end.
Proof.
  split; [exact default_answers_allowed|].
  exact (click_on_form_record default_answers (Some stale_session) stub_world
           default_answers_allowed).
Defined.

Example first_run_with_click :
  (script_run None default_answers true stub_world).1.1
  = Some (Results "Stage2" ["Stage1"; "Stage2"; "Stage3"]
            [f64_lit 2 1; f64_lit 3 1; f64_lit 5 1]
            [("Stage1", "20.0%"); ("Stage2", "30.0%"); ("Stage3", "50.0%")]).
Proof. vm_compute. reflexivity. Qed.

(** ** Evaluations of the form and the page *)

Example defaults_are_accepted :
  validate_input_data (VDict (fill_patient_data default_answers ∅))
  = Return (true, "")
  /\ fill_patient_data default_answers ∅ !! "Edema" = Some (VInt 0)
  /\ fill_patient_data default_answers ∅ !! "Albumin"
     = Some (VFloat (f64_lit 40 1)).
Proof. repeat split; vm_compute; reflexivity. Qed.

Example percent_format_samples :
  map Percent.format
      [f64_lit 2 1; f64_lit 5 1; f64_lit 12345 5; f64_lit 9995 4;
       f64_lit 5 4; f64_of_Z 1; S754_zero false]
  = ["20.0%"; "50.0%"; "12.3%"; "100.0%"; "0.1%"; "100.0%"; "0.0%"].
Proof. vm_compute. reflexivity. Qed.

Example click_on_rejected_record :
  (on_predict_click (VDict record_lowercase_sex) stub_world).1
  = ErrorBox "⚠️ An error occurred: Sex must be either 'M' or 'F'".
Proof. vm_compute. reflexivity. Qed.
